(** * Student attendance API (main.py): a shallow embedding and its properties

    The service has three handlers with behaviour of their own:
    [create_attendance] (POST /attendance), [list_attendance]
    (GET /attendance) and [test_database] (GET /test).  They talk to a
    document store (module [database]), to an HTTP endpoint (package
    [requests]), to the process environment and to the clock.  None of
    these is part of main.py, so they are gathered in a record [World] of
    oracles; the handlers are written in a state-and-exception monad whose
    state holds the number of clock readings and the trace of outbound
    calls. *)

From Stdlib Require Import ZArith String Ascii List Lia DecimalString.
From stdpp Require Import base gmap strings list sorting.

Local Open Scope Z_scope.
Local Open Scope string_scope.

(** ** Python values *)

(** Exceptions.  Every value of [exn] is an instance of Python's [Exception];
    the class matters only where main.py tells [ImportError] apart. *)
Inductive exn_class :=
  | ImportError | TypeError | KeyError | AttributeError | ValueError
  | OtherException (name : string).

Record exn := Exn { exn_cls : exn_class; exn_msg : string }.

(** [isinstance(e, ImportError)] *)
Definition is_ImportError (e : exn) : bool :=
  match exn_cls e with ImportError => true | _ => false end.

(** [str(e)] *)
Definition exn_str (e : exn) : string := exn_msg e.

(** [datetime.datetime]: the fields of the Python object; [tz_offset] is the
    UTC offset in minutes of an aware value, [None] for a naive one. *)
Record datetime := Datetime {
  dt_year : Z; dt_month : Z; dt_day : Z;
  dt_hour : Z; dt_minute : Z; dt_second : Z; dt_microsecond : Z;
  tz_offset : option Z
}.

(** The values a field of a submission or of a stored document holds:
    [None], [bool], [int], [str], [datetime] and bson's [ObjectId] (given by
    its hexadecimal text). *)
Inductive pyval :=
  | PNone
  | PBool (b : bool)
  | PInt (z : Z)
  | PStr (s : string)
  | PDatetime (d : datetime)
  | PObjectId (hex : string).

(** A Python [dict] with [str] keys. *)
Abbreviation dict := (gmap string pyval).

(** [type(v).__name__] *)
Definition type_name (v : pyval) : string :=
  match v with
  | PNone => "NoneType"
  | PBool _ => "bool"
  | PInt _ => "int"
  | PStr _ => "str"
  | PDatetime _ => "datetime.datetime"
  | PObjectId _ => "ObjectId"
  end.

(** [bool(v)] *)
Definition py_truthy (v : pyval) : bool :=
  match v with
  | PNone => false
  | PBool b => b
  | PInt z => negb (z =? 0)%Z
  | PStr s => negb (String.eqb s "")
  | PDatetime _ => true
  | PObjectId _ => true
  end.

(** [s[:n]] on a [str] *)
Definition str_prefix (n : nat) (s : string) : string := String.substring 0 n s.

(** ** The outside world *)

(** [requests.Response], as far as main.py looks at it: what
    [raise_for_status()] does. *)
Record response := Response { raise_for_status : option exn }.

(** The [db] object of module [database]: [hasattr(db, 'name')] with the name,
    and the outcome of [db.list_collection_names()]. *)
Record database := Database {
  db_name : option string;
  list_collection_names : exn + list string
}.

(** A call to the store gateway or to the forwarding endpoint, as recorded
    in the trace.  The calls on [db] that test_database makes are not
    recorded. *)
Inductive event :=
  | EvInsert (collection : string) (document : dict)
  | EvFind (collection : string) (filter : dict) (limit : Z)
  | EvPost (url : string) (json : dict) (timeout : Z).

Record World := {
  (** [os.getenv] *)
  getenv : string → option string;
  (** [datetime.now(timezone.utc)], by the number of earlier readings *)
  utcnow : nat → datetime;
  (** [datetime.isoformat], [datetime.fromisoformat], [str] and [<] on
      [datetime] *)
  isoformat : datetime → string;
  fromisoformat : string → exn + datetime;
  datetime_str : datetime → string;
  datetime_lt : datetime → datetime → exn + bool;
  (** [database.create_document], [database.get_documents] *)
  create_document : string → dict → exn + pyval;
  get_documents : string → dict → Z → exn + list dict;
  (** [requests.post(url, json=..., timeout=...)] *)
  requests_post : string → dict → Z → exn + response;
  (** [from database import db]; [db] may be [None] *)
  import_db : exn + option database
}.

(** ** The monads *)

(** Fallible pure code. *)
Abbreviation Res := (sum exn).

#[export] Instance Res_ret : MRet Res := λ A x, inr x.
#[export] Instance Res_bind : MBind Res :=
  λ A B f m, match m with inl e => inl e | inr x => f x end.

Record state := State { ticks : nat; trace : list event }.

(** Effectful code: the state is kept when an exception is raised. *)
Definition M (A : Type) : Type := state → (exn + A) * state.

#[export] Instance M_ret : MRet M := λ A x st, (inr x, st).
#[export] Instance M_bind : MBind M :=
  λ A B f m st,
    match m st with
    | (inl e, st') => (inl e, st')
    | (inr x, st') => f x st'
    end.

Definition lift {A} (r : Res A) : M A := λ st, (r, st).

(** [try: body except Exception as e: handler e] *)
Definition try_except {A} (body : M A) (handler : exn → M A) : M A :=
  λ st,
    match body st with
    | (inl e, st') => handler e st'
    | (inr x, st') => (inr x, st')
    end.

Definition emit (ev : event) : M unit :=
  λ st, (inr tt, {| ticks := ticks st; trace := (trace st ++ [ev])%list |}).

(** ** Built-ins on values *)

Section Builtins.
Context (W : World).

(** [str(v)] *)
Definition py_str (v : pyval) : string :=
  match v with
  | PNone => "None"
  | PBool true => "True"
  | PBool false => "False"
  | PInt z => NilZero.string_of_int (Z.to_int z)
  | PStr s => s
  | PDatetime d => datetime_str W d
  | PObjectId hex => hex
  end.

(** The [int] behind an [int] or a [bool] ([bool] is a subclass of [int]). *)
Definition as_int (v : pyval) : option Z :=
  match v with
  | PInt z => Some z
  | PBool b => Some (if b then 1 else 0)%Z
  | _ => None
  end.

Definition lt_TypeError (a b : pyval) : exn :=
  Exn TypeError
    ("'<' not supported between instances of '" +:+ type_name a +:+
     "' and '" +:+ type_name b +:+ "'").

(** [a < b]: numbers by value, [str] and [ObjectId] lexicographically,
    [datetime] by the library; anything else is a [TypeError]. *)
Definition py_lt (a b : pyval) : Res bool :=
  match a, b with
  | PStr s, PStr t => inr (String.ltb s t)
  | PObjectId s, PObjectId t => inr (String.ltb s t)
  | PDatetime d, PDatetime e => datetime_lt W d e
  | _, _ =>
      match as_int a, as_int b with
      | Some x, Some y => inr (x <? y)%Z
      | _, _ => inl (lt_TypeError a b)
      end
  end.

(** [d.get(k, dflt)] *)
Definition dict_get (d : dict) (k : string) (dflt : pyval) : pyval :=
  default dflt (d !! k).

(** [d[k]] *)
Definition dict_getitem (d : dict) (k : string) : Res pyval :=
  match d !! k with
  | Some v => inr v
  | None => inl (Exn KeyError ("'" +:+ k +:+ "'"))
  end.

(** [v.isoformat()] *)
Definition call_isoformat (v : pyval) : Res pyval :=
  match v with
  | PDatetime d => inr (PStr (isoformat W d))
  | _ =>
      inl (Exn AttributeError
             ("'" +:+ type_name v +:+ "' object has no attribute 'isoformat'"))
  end.

(** *** [list.sort(key=..., reverse=True)]

    Python's sort is stable, compares keys with [<] only and lets an
    exception of a comparison escape.  With [reverse=True] it reverses the
    list, sorts it ascending and reverses it again, so that equal keys keep
    their order.  [insert_sorted] puts an element behind the elements that are
    not greater than it. *)
Fixpoint insert_sorted {A} (key : A → pyval) (x : A) (l : list A)
  : Res (list A) :=
  match l with
  | [] => inr [x]
  | y :: l' =>
      b ← py_lt (key x) (key y);
      if (b : bool) then inr (x :: y :: l')
      else l'' ← insert_sorted key x l'; inr (y :: l'')
  end.

(** Ascending stable sort: the elements are inserted from left to right. *)
Definition sort_ascending {A} (key : A → pyval) (l : list A) : Res (list A) :=
  foldl (λ acc x, acc ← acc; insert_sorted key x acc) (inr []) l.

Definition list_sort_reverse {A} (key : A → pyval) (l : list A)
  : Res (list A) :=
  l' ← sort_ascending key (reverse l); inr (reverse l').

End Builtins.

(** ** The record model *)

(** What the field [scanned_at] of a payload holds: the declared
    [Optional[datetime]], and the [str] that [create_attendance] tests for.
    A payload that went through the validation of the class never holds a
    [str] (see [AttendanceIn_validate]). *)
Inductive scanned_at_in :=
  | ScanNone
  | ScanDatetime (d : datetime)
  | ScanStr (s : string).

(** [class AttendanceIn(BaseModel)] *)
Record AttendanceIn := {
  name : string;
  nisn : string;
  major : string;
  scanned_at : scanned_at_in;
  source : option string
}.

(** [AttendanceIn.model_construct(name=..., nisn=..., major=..., ...)]: the
    payload is built from the given values without validation.  The two
    optional fields may be left out ([None] here) and then take the default
    of their [Field]: [None] for [scanned_at], ["qr"] for [source]. *)
Definition AttendanceIn_new (name nisn major : string)
    (scanned_at : option scanned_at_in) (source : option (option string))
  : AttendanceIn :=
  {| name := name; nisn := nisn; major := major;
     scanned_at := default ScanNone scanned_at;
     source := default (Some "qr") source |}.

(** The validation of [scanned_at: Optional[datetime]]: [None] and a
    [datetime] pass, a text is handed to pydantic's datetime parser, which is
    not part of main.py ([parse_datetime]); what the parser rejects is a
    validation error, what it accepts is kept as the [datetime]. *)
Definition validate_scanned_at (parse_datetime : string → Res datetime)
    (v : scanned_at_in) : Res scanned_at_in :=
  match v with
  | ScanStr s => d ← parse_datetime s; inr (ScanDatetime d)
  | _ => inr v
  end.

(** [AttendanceIn(name=..., nisn=..., major=..., ...)], which is also what
    the framework runs on the body of a request: the payload is built after
    validation, or the validation error is raised. *)
Definition AttendanceIn_validate (parse_datetime : string → Res datetime)
    (name nisn major : string)
    (scanned_at : option scanned_at_in) (source : option (option string))
  : Res AttendanceIn :=
  v ← validate_scanned_at parse_datetime (default ScanNone scanned_at);
  inr (AttendanceIn_new name nisn major (Some v) source).

Definition scanned_at_value (s : scanned_at_in) : pyval :=
  match s with
  | ScanNone => PNone
  | ScanDatetime d => PDatetime d
  | ScanStr s => PStr s
  end.

Definition optional_str (o : option string) : pyval :=
  match o with Some s => PStr s | None => PNone end.

(** [payload.model_dump()] *)
Definition model_dump (payload : AttendanceIn) : dict :=
  <["name" := PStr (name payload)]>
  (<["nisn" := PStr (nisn payload)]>
  (<["major" := PStr (major payload)]>
  (<["scanned_at" := scanned_at_value (scanned_at payload)]>
  (<["source" := optional_str (source payload)]> ∅)))).

(** A value of the diagnostic response of GET /test: [None], a [str] or a
    list of collection names. *)
Inductive diag_value :=
  | DNone
  | DStr (s : string)
  | DList (l : list string).

(** ** The handlers *)

Section Handlers.
Context (W : World).

(** [datetime.now(timezone.utc)] *)
Definition now : M pyval :=
  λ st, (inr (PDatetime (utcnow W (ticks st))),
         {| ticks := S (ticks st); trace := trace st |}).

(** The calls that leave the process: each is recorded, then answered by the
    world. *)
Definition call_create_document (collection : string) (data : dict)
  : M pyval :=
  emit (EvInsert collection data);; lift (create_document W collection data).

Definition call_get_documents (collection : string) (filter : dict)
    (limit : Z) : M (list dict) :=
  emit (EvFind collection filter limit);;
  lift (get_documents W collection filter limit).

Definition call_requests_post (url : string) (json : dict) (timeout : Z)
  : M response :=
  emit (EvPost url json timeout);; lift (requests_post W url json timeout).

(** [r.raise_for_status()] *)
Definition call_raise_for_status (r : response) : M unit :=
  match raise_for_status r with
  | Some e => lift (inl e)
  | None => mret tt
  end.

(** *** POST /attendance *)

(** The [try] body of the forwarding step (lines 74-86). *)
Definition forward_to_sheets (sheets_url : string) (data : dict)
    (scanned_at : pyval) : M string :=
  v_name ← lift (dict_getitem data "name");
  v_nisn ← lift (dict_getitem data "nisn");
  v_major ← lift (dict_getitem data "major");
  v_scanned_at ← lift (call_isoformat W scanned_at);
  let v_source := dict_get data "source" (PStr "qr") in
  r ← call_requests_post sheets_url
        (<["name" := v_name]>
        (<["nisn" := v_nisn]>
        (<["major" := v_major]>
        (<["scanned_at" := v_scanned_at]>
        (<["source" := v_source]> ∅)))))
        10;
  call_raise_for_status r;;
  mret "ok".

(** Lines 53-58: the timestamp of the record. *)
Definition resolve_scanned_at (data : dict) : M pyval :=
  scanned_at ←
    (let v := dict_get data "scanned_at" PNone in
     if py_truthy v then mret v else now);
  match scanned_at with
  | PStr s =>
      try_except (d ← lift (fromisoformat W s); mret (PDatetime d))
                 (λ _, now)
  | _ => mret scanned_at
  end.

(** Lines 62-66: the insert, an exception of which gives [None]. *)
Definition persist (data : dict) : M pyval :=
  try_except (call_create_document "studentattendance" data)
             (λ _, mret PNone).

(** Lines 69-88: the forwarding step and its status. *)
Definition forward (data : dict) (scanned_at : pyval) : M string :=
  let sheets_url := getenv W "GOOGLE_SHEETS_WEBAPP_URL" in
  match sheets_url with
  | Some url =>
      if negb (String.eqb url "") then
        try_except (forward_to_sheets url data scanned_at)
                   (λ e, mret ("error: " +:+ str_prefix 120 (exn_str e)))
      else mret "skipped"
  | None => mret "skipped"
  end.

Definition create_attendance (payload : AttendanceIn) : M dict :=
  let data := model_dump payload in
  (* Ensure timestamp *)
  scanned_at ← resolve_scanned_at data;
  let data := <["scanned_at" := scanned_at]> data in
  (* Persist to MongoDB *)
  inserted_id ← persist data;
  (* Forward to Google Sheets (Apps Script Web App) if configured *)
  forward_status ← forward data scanned_at;
  mret (<["ok" := PBool true]>
       (<["id" := inserted_id]>
       (<["forward_to_sheets" := PStr forward_status]> ∅))).

(** [@app.post("/attendance")] with [payload: AttendanceIn]: the body of the
    request is validated against the class and the handler runs on the
    payload; a validation error is answered to the caller (422) and the
    handler does not run. *)
Definition post_attendance (parse_datetime : string → Res datetime)
    (name nisn major : string)
    (scanned_at : option scanned_at_in) (source : option (option string))
  : M dict :=
  payload ← lift (AttendanceIn_validate parse_datetime name nisn major
                    scanned_at source);
  create_attendance payload.

(** *** GET /attendance *)

(** [if isinstance(d.get(k), datetime): d[k] = d[k].isoformat()] *)
Definition isoformat_field (k : string) (d : dict) : dict :=
  match dict_get d k PNone with
  | PDatetime t => <[k := PStr (isoformat W t)]> d
  | _ => d
  end.

(** The body of the loop over the documents (lines 105-111). *)
Definition convert_document (d : dict) : dict :=
  let d := <["id" := PStr (py_str W (dict_get d "_id" (PStr "")))]>
             (delete "_id" d) in
  let d := isoformat_field "scanned_at" d in
  let d := isoformat_field "created_at" d in
  isoformat_field "updated_at" d.

(** [lambda x: x.get("created_at", "")] *)
Definition created_at_key (x : dict) : pyval := dict_get x "created_at" (PStr "").

Definition list_attendance (limit : Z) : M (list dict) :=
  try_except
    (docs ← call_get_documents "studentattendance" ∅ limit;
     let result := foldl (λ result d, (result ++ [convert_document d])%list) [] docs in
     (* Show latest first by created_at if available *)
     lift (list_sort_reverse W created_at_key result))
    (λ _, mret []).

(** *** GET /test *)

(** [bool(os.getenv(k))]: a variable that is unset or empty is falsy. *)
Definition env_is_set (k : string) : bool :=
  match getenv W k with
  | Some v => negb (String.eqb v "")
  | None => false
  end.

(** An [except] clause sees [response] as it is when the exception is
    raised: the import raises before the first assignment, the enumeration of
    the collections after the four assignments that follow the import. *)
Definition test_database : M (gmap string diag_value) :=
  let response : gmap string diag_value :=
    <["backend" := DStr "✅ Running"]>
    (<["database" := DStr "❌ Not Available"]>
    (<["database_url" := DNone]>
    (<["database_name" := DNone]>
    (<["connection_status" := DStr "Not Connected"]>
    (<["collections" := DList []]> ∅))))) in
  response ←
    try_except
      ((* Try to import database module *)
       db ← lift (import_db W);
       match db with
       | Some db =>
           let response := <["database" := DStr "✅ Available"]> response in
           let response :=
             <["database_url" := DStr "✅ Configured"]> response in
           let response :=
             <["database_name" :=
                 DStr (match db_name db with
                       | Some n => n
                       | None => "✅ Connected"
                       end)]> response in
           let response :=
             <["connection_status" := DStr "Connected"]> response in
           (* Try to list collections to verify connectivity *)
           try_except
             (collections ← lift (list_collection_names db);
              let response :=
                <["collections" := DList (take 10 collections)]> response in
              mret (<["database" := DStr "✅ Connected & Working"]> response))
             (λ e,
                mret (<["database" :=
                          DStr ("⚠️  Connected but Error: " +:+
                                str_prefix 50 (exn_str e))]> response))
       | None =>
           mret (<["database" := DStr "⚠️  Available but not initialized"]>
                   response)
       end)
      (λ e,
         if is_ImportError e then
           mret (<["database" :=
                     DStr "❌ Database module not found (run enable-database first)"]>
                   response)
         else
           mret (<["database" := DStr ("❌ Error: " +:+ str_prefix 50 (exn_str e))]>
                   response));
  (* Check environment variables *)
  let response :=
    <["database_url" :=
        DStr (if env_is_set "DATABASE_URL" then "✅ Set" else "❌ Not Set")]>
      response in
  let response :=
    <["database_name" :=
        DStr (if env_is_set "DATABASE_NAME" then "✅ Set" else "❌ Not Set")]>
      response in
  mret response.

(** *** GET / and GET /config *)

Definition read_root : M (gmap string diag_value) :=
  mret (<["message" := DStr "Student Attendance API is running"]> ∅).

(** Expose non-sensitive config so frontend can adapt UI. *)
Definition get_config : M dict :=
  mret (<["sheets_webhook" :=
            PBool (env_is_set "GOOGLE_SHEETS_WEBAPP_URL")]> ∅).

End Handlers.

(** ** Vocabulary of the properties *)

Definition is_datetime (v : pyval) : bool :=
  match v with PDatetime _ => true | _ => false end.

#[export] Instance datetime_eq_dec : EqDecision datetime.
Proof. solve_decision. Defined.

#[export] Instance pyval_eq_dec : EqDecision pyval.
Proof. solve_decision. Defined.

(** The keys that the loop of list_attendance writes or removes. *)
Definition converted_keys : list string :=
  ["_id"; "id"; "scanned_at"; "created_at"; "updated_at"].

(** The keys of a submission, as stored and as forwarded. *)
Definition submission_keys : list string :=
  ["name"; "nisn"; "major"; "scanned_at"; "source"].

(** The keys that hold a timestamp. *)
Definition timestamp_keys : list string :=
  ["scanned_at"; "created_at"; "updated_at"].

Section Vocabulary.
Context (W : World).

(** The JSON object that is posted for a payload and a timestamp. *)
Definition forward_json (p : AttendanceIn) (dt : datetime) : dict :=
  <["name" := PStr (name p)]>
  (<["nisn" := PStr (nisn p)]>
  (<["major" := PStr (major p)]>
  (<["scanned_at" := PStr (isoformat W dt)]>
  (<["source" := optional_str (source p)]> ∅)))).

(** The status the forwarding step gives for the answer of the endpoint. *)
Definition status_of_post (r : Res response) : string :=
  match r with
  | inl e => "error: " +:+ str_prefix 120 (exn_str e)
  | inr r =>
      match raise_for_status r with
      | Some e => "error: " +:+ str_prefix 120 (exn_str e)
      | None => "ok"
      end
  end.

(** The forwarding endpoint, when one is configured: the variable is set
    and not empty. *)
Definition forwarding_endpoint : option string :=
  match getenv W "GOOGLE_SHEETS_WEBAPP_URL" with
  | Some url => if String.eqb url "" then None else Some url
  | None => None
  end.

(** The events of the forwarding step. *)
Definition forward_events (p : AttendanceIn) (dt : datetime) : list event :=
  match forwarding_endpoint with
  | Some url => [EvPost url (forward_json p dt) 10]
  | None => []
  end.

(** What the handler returns and records. *)
Definition listing (limit : Z) : list dict :=
  match get_documents W "studentattendance" ∅ limit with
  | inl _ => []
  | inr docs =>
      match list_sort_reverse W created_at_key (convert_document W <$> docs) with
      | inl _ => []
      | inr r => r
      end
  end.






(** The text for an environment variable. *)
Definition set_or_not (k : string) : diag_value :=
  DStr (if env_is_set W k then "✅ Set" else "❌ Not Set").

(** The same world with another outcome of [from database import db]. *)
Definition with_import_db (probe : exn + option database) : World :=
  {| getenv := getenv W; utcnow := utcnow W; isoformat := isoformat W;
     fromisoformat := fromisoformat W; datetime_str := datetime_str W;
     datetime_lt := datetime_lt W; create_document := create_document W;
     get_documents := get_documents W; requests_post := requests_post W;
     import_db := probe |}.

End Vocabulary.

Section SortVocabulary.
Context (W : World) {A : Type} (key : A → pyval).

(** [x] may stand before [y] in an ascending list: [y] is not less. *)
Definition ascending (x y : A) : Prop := py_lt W (key y) (key x) = inr false.

(** [x] may stand before [y] in a descending list: [x] is not less. *)
Definition descending (x y : A) : Prop := py_lt W (key x) (key y) = inr false.

(** The key of [x] is not a [datetime]. *)
Definition plain_key (x : A) : Prop := is_datetime (key x) = false.

(** The key of [x] is a [str]. *)
Definition text_key (x : A) : Prop := ∃ s, key x = PStr s.

End SortVocabulary.

(** ** A world to run the handlers in *)

Module Demo.

Definition noon : datetime :=
  Datetime 2024 5 17 12 0 0 0 (Some 0).

(** Storage is down, the endpoint answers, no text parses. *)
Definition storage_down : World :=
  {| getenv := λ k,
       if String.eqb k "GOOGLE_SHEETS_WEBAPP_URL"
       then Some "https://sheets.example/hook" else None;
     utcnow := λ _, noon;
     isoformat := λ _, "2024-05-17T12:00:00+00:00";
     fromisoformat := λ _, inl (Exn ValueError "Invalid isoformat string");
     datetime_str := λ _, "2024-05-17 12:00:00+00:00";
     datetime_lt := λ _ _, inr false;
     create_document := λ _ _, inl (Exn (OtherException "Exception")
                                       "Database not available");
     get_documents := λ _ _ _, inl (Exn (OtherException "Exception")
                                       "Database not available");
     requests_post := λ _ _ _, inr (Response None);
     import_db := inl (Exn ImportError "cannot import name 'db'") |}.

(** Storage and endpoint both answer. *)
Definition all_up : World :=
  {| getenv := λ k,
       if String.eqb k "GOOGLE_SHEETS_WEBAPP_URL"
       then Some "https://sheets.example/hook" else None;
     utcnow := λ _, noon;
     isoformat := λ _, "2024-05-17T12:00:00+00:00";
     fromisoformat := λ _, inl (Exn ValueError "Invalid isoformat string");
     datetime_str := λ _, "2024-05-17 12:00:00+00:00";
     datetime_lt := λ _ _, inr false;
     create_document := λ _ _, inr (PStr "65f0a3");
     get_documents := λ _ _ _, inr [];
     requests_post := λ _ _ _, inr (Response None);
     import_db :=
       inr (Some (Database (Some "attendance") (inr ["studentattendance"]))) |}.

(** The endpoint answers with a status that [raise_for_status] rejects. *)
Definition endpoint_rejects : World :=
  {| getenv := getenv all_up; utcnow := utcnow all_up;
     isoformat := isoformat all_up; fromisoformat := fromisoformat all_up;
     datetime_str := datetime_str all_up; datetime_lt := datetime_lt all_up;
     create_document := create_document all_up;
     get_documents := get_documents all_up;
     requests_post := λ _ _ _,
       inr (Response (Some (Exn (OtherException "HTTPError")
                                "500 Server Error: Internal Server Error")));
     import_db := import_db all_up |}.

Definition ana : AttendanceIn :=
  AttendanceIn_new "Ana" "123" "CS" (Some (ScanStr "yesterday")) None.

(** A datetime parser of the validation that accepts one text. *)
Definition parse_one (s : string) : Res datetime :=
  if String.eqb s "2024-05-17T09:30:00"
  then inr (Datetime 2024 5 17 9 30 0 0 None)
  else inl (Exn ValueError "Input should be a valid datetime").

Definition half_past_nine : datetime := Datetime 2024 5 17 9 30 0 0 None.

(** As [all_up], with a [fromisoformat] that accepts one text. *)
Definition parses : World :=
  {| getenv := getenv all_up; utcnow := utcnow all_up;
     isoformat := isoformat all_up;
     fromisoformat := λ s,
       if String.eqb s "2024-05-17T09:30:00" then inr half_past_nine
       else inl (Exn ValueError "Invalid isoformat string");
     datetime_str := datetime_str all_up; datetime_lt := datetime_lt all_up;
     create_document := create_document all_up;
     get_documents := get_documents all_up;
     requests_post := requests_post all_up;
     import_db := import_db all_up |}.

Definition budi : AttendanceIn :=
  AttendanceIn_new "Budi" "456" "EE" (Some (ScanStr "2024-05-17T09:30:00"))
    (Some None).

Definition citra : AttendanceIn :=
  AttendanceIn_new "Citra" "789" "ME" (Some (ScanDatetime half_past_nine))
    (Some (Some "manual")).

(** The endpoint cannot be reached: the post raises. *)
Definition endpoint_down : World :=
  {| getenv := getenv all_up; utcnow := utcnow all_up;
     isoformat := isoformat all_up; fromisoformat := fromisoformat all_up;
     datetime_str := datetime_str all_up; datetime_lt := datetime_lt all_up;
     create_document := create_document all_up;
     get_documents := get_documents all_up;
     requests_post := λ _ _ _,
       inl (Exn (OtherException "ConnectionError") "Connection refused");
     import_db := import_db all_up |}.

(** The database is there but cannot list its collections. *)
Definition enumeration_fails : World :=
  with_import_db all_up
    (inr (Some (Database None
                  (inl (Exn (OtherException "OperationFailure")
                            "not authorized"))))).

Definition start : state := {| ticks := 0; trace := [] |}.

End Demo.

Module DemoListing.

(** Two stored documents: the first has no [created_at], the second has
    the empty text there. *)
Definition doc_without : dict :=
  <["_id" := PObjectId "65f0a1"]> (<["name" := PStr "Ana"]> ∅).

Definition doc_empty : dict :=
  <["_id" := PObjectId "65f0a2"]>
  (<["name" := PStr "Budi"]> (<["created_at" := PStr ""]> ∅)).

Definition two_documents : World :=
  {| getenv := λ _, None;
     utcnow := λ _, Demo.noon;
     isoformat := λ _, "2024-05-17T12:00:00+00:00";
     fromisoformat := λ _, inl (Exn ValueError "Invalid isoformat string");
     datetime_str := λ _, "2024-05-17 12:00:00+00:00";
     datetime_lt := λ _ _, inr false;
     create_document := λ _ _, inr (PStr "65f0a3");
     get_documents := λ _ _ _, inr [doc_without; doc_empty];
     requests_post := λ _ _ _, inr (Response None);
     import_db := inr None |}.

(** [isoformat] of a naive [datetime] without microseconds. *)
Definition two_digits (z : Z) : string :=
  (if (z <? 10)%Z then "0" else "") +:+ NilZero.string_of_int (Z.to_int z).

Definition isoformat_seconds (d : datetime) : string :=
  NilZero.string_of_int (Z.to_int (dt_year d)) +:+ "-" +:+
  two_digits (dt_month d) +:+ "-" +:+ two_digits (dt_day d) +:+ "T" +:+
  two_digits (dt_hour d) +:+ ":" +:+ two_digits (dt_minute d) +:+ ":" +:+
  two_digits (dt_second d).

Definition at_second (sec : Z) : datetime :=
  Datetime 2024 5 17 12 0 sec 0 None.

Definition stored (oid : string) (sec : Z) : dict :=
  <["_id" := PObjectId oid]>
  (<["created_at" := PDatetime (at_second sec)]> ∅).

(** Three stored documents, created at 12:00:01, 12:00:02 and 12:00:03. *)
Definition three_documents : World :=
  {| getenv := λ _, None;
     utcnow := λ _, Demo.noon;
     isoformat := isoformat_seconds;
     fromisoformat := λ _, inl (Exn ValueError "Invalid isoformat string");
     datetime_str := isoformat_seconds;
     datetime_lt := λ _ _, inr false;
     create_document := λ _ _, inr (PStr "65f0a4");
     get_documents := λ _ _ _,
       inr [stored "65f0a1" 1; stored "65f0a2" 2; stored "65f0a3" 3];
     requests_post := λ _ _ _, inr (Response None);
     import_db := inr None |}.

(** Two stored documents whose [created_at] cannot be compared: a number
    and a text. *)
Definition mixed_keys : World :=
  {| getenv := λ _, None;
     utcnow := λ _, Demo.noon;
     isoformat := isoformat_seconds;
     fromisoformat := λ _, inl (Exn ValueError "Invalid isoformat string");
     datetime_str := isoformat_seconds;
     datetime_lt := λ _ _, inr false;
     create_document := λ _ _, inr (PStr "65f0a4");
     get_documents := λ _ _ _,
       inr [<["created_at" := PInt 1715947200]> ∅;
            <["created_at" := PStr "2024-05-17T12:00:00"]> ∅];
     requests_post := λ _ _ _, inr (Response None);
     import_db := inr None |}.

(** The store holds one document: the submission of [Demo.citra] as it was
    inserted, with the [_id] and the two timestamps the store adds. *)
Definition citra_stored : dict :=
  <["_id" := PObjectId "65f0a3"]>
  (<["created_at" := PDatetime Demo.noon]>
  (<["updated_at" := PDatetime Demo.noon]>
  (<["scanned_at" := PDatetime Demo.half_past_nine]>
     (model_dump Demo.citra)))).

Definition one_document : World :=
  {| getenv := getenv Demo.all_up; utcnow := utcnow Demo.all_up;
     isoformat := isoformat_seconds;
     fromisoformat := fromisoformat Demo.all_up;
     datetime_str := isoformat_seconds; datetime_lt := datetime_lt Demo.all_up;
     create_document := create_document Demo.all_up;
     get_documents := λ _ _ _, inr [citra_stored];
     requests_post := requests_post Demo.all_up;
     import_db := import_db Demo.all_up |}.

End DemoListing.

(** * Properties *)

(** ** Strings *)

Lemma str_prefix_length n s : (String.length (str_prefix n s) ≤ n)%nat.
Proof.
  unfold str_prefix. revert s.
  induction n as [|n IH]; intros [|c s]; simpl; try lia.
  specialize (IH s). lia.
Qed.

Lemma string_length_append s t :
  String.length (s +:+ t) = (String.length s + String.length t)%nat.
Proof. induction s as [|c s IH]; simpl; [done | by rewrite IH]. Qed.

Lemma string_prefix_append s t : String.prefix s (s +:+ t) = true.
Proof.
  induction s as [|c s IH]; simpl.
  - by destruct t.
  - destruct (ascii_dec c c); [done | congruence].
Qed.

Lemma string_compare_trans c s t u :
  String.compare s t = c → String.compare t u = c → String.compare s u = c.
Proof.
  revert t u. induction s as [|a s IH]; intros [|b t] [|d u]; simpl;
    try congruence.
  unfold Ascii.compare.
  destruct (N.compare_spec (N_of_ascii a) (N_of_ascii b)) as [Hab|Hab|Hab];
    destruct (N.compare_spec (N_of_ascii b) (N_of_ascii d)) as [Hbd|Hbd|Hbd];
    intros H1 H2; try congruence.
  - rewrite Hab, Hbd, N.compare_refl. eauto.
  - by rewrite Hab, (proj2 (N.compare_lt_iff _ _) Hbd).
  - by rewrite Hab, (proj2 (N.compare_gt_iff _ _) Hbd).
  - by rewrite <- Hbd, (proj2 (N.compare_lt_iff _ _) Hab).
  - assert (N_of_ascii a < N_of_ascii d)%N as Had by lia.
    by rewrite (proj2 (N.compare_lt_iff _ _) Had).
  - by rewrite <- Hbd, (proj2 (N.compare_gt_iff _ _) Hab).
  - assert (N_of_ascii d < N_of_ascii a)%N as Had by lia.
    by rewrite (proj2 (N.compare_gt_iff _ _) Had).
Qed.

Lemma string_ltb_asym s t : String.ltb s t = true → String.ltb t s = false.
Proof.
  unfold String.ltb. rewrite (String.compare_antisym s t).
  by destruct (String.compare t s).
Qed.

(** ** POST /attendance, step by step *)

Section CreateAttendance.
Context (W : World).

Lemma model_dump_scanned_at p :
  model_dump p !! "scanned_at" = Some (scanned_at_value (scanned_at p)).
Proof. unfold model_dump. by simplify_map_eq. Qed.

(** The timestamp step never raises, leaves the trace alone and gives a
    [datetime]; it reads the clock when the field is absent or a text that
    does not parse. *)
Lemma resolve_scanned_at_run p st :
  ∃ dt n,
    resolve_scanned_at W (model_dump p) st
      = (inr (PDatetime dt), {| ticks := n; trace := trace st |})
    ∧ (scanned_at p = ScanNone → dt = utcnow W (ticks st))
    ∧ (∀ d, scanned_at p = ScanDatetime d → dt = d)
    ∧ (∀ s d, scanned_at p = ScanStr s → s ≠ "" →
         fromisoformat W s = inr d → dt = d)
    ∧ (∀ s e, scanned_at p = ScanStr s →
         fromisoformat W s = inl e → dt = utcnow W (ticks st)).
Proof.
  unfold resolve_scanned_at, dict_get. rewrite model_dump_scanned_at.
  destruct st as [n tr].
  destruct (scanned_at p) as [|d|s] eqn:Hs; simpl.
  - exists (utcnow W n), (S n). split; [done |]. repeat split; intros; congruence.
  - exists d, n. split; [done |]. repeat split; intros; congruence.
  - destruct s as [|c s]; simpl.
    + exists (utcnow W n), (S n). split; [done |]. repeat split; intros; congruence.
    + unfold mbind, M_bind, try_except, lift, now; simpl.
      destruct (fromisoformat W (String c s)) as [e|d] eqn:Hp; simpl.
      * exists (utcnow W n), (S n). split; [done |]. repeat split; intros; congruence.
      * exists d, n. split; [done |]. repeat split; intros; congruence.
Qed.

(** The insert step never raises and records exactly one insert. *)
Lemma persist_run data st :
  persist W data st
    = (inr (match create_document W "studentattendance" data with
            | inl _ => PNone
            | inr v => v
            end),
       {| ticks := ticks st;
          trace := (trace st ++ [EvInsert "studentattendance" data])%list |}).
Proof.
  unfold persist, try_except, call_create_document, emit, lift.
  unfold mbind, M_bind; simpl.
  by destruct (create_document W "studentattendance" data).
Qed.

Lemma stored_lookup_name p v :
  <["scanned_at" := v]> (model_dump p) !! "name" = Some (PStr (name p)).
Proof. unfold model_dump. by simplify_map_eq. Qed.

Lemma stored_lookup_nisn p v :
  <["scanned_at" := v]> (model_dump p) !! "nisn" = Some (PStr (nisn p)).
Proof. unfold model_dump. by simplify_map_eq. Qed.

Lemma stored_lookup_major p v :
  <["scanned_at" := v]> (model_dump p) !! "major" = Some (PStr (major p)).
Proof. unfold model_dump. by simplify_map_eq. Qed.

Lemma stored_lookup_source p v :
  <["scanned_at" := v]> (model_dump p) !! "source"
    = Some (optional_str (source p)).
Proof. unfold model_dump. by simplify_map_eq. Qed.

Lemma forward_to_sheets_run url p dt st :
  try_except
    (forward_to_sheets W url (<["scanned_at" := PDatetime dt]> (model_dump p))
       (PDatetime dt))
    (λ e, mret ("error: " +:+ str_prefix 120 (exn_str e))) st
  = (inr (status_of_post (requests_post W url (forward_json W p dt) 10)),
     {| ticks := ticks st;
        trace := (trace st ++ [EvPost url (forward_json W p dt) 10])%list |}).
Proof.
  unfold forward_to_sheets, dict_getitem, dict_get.
  rewrite (stored_lookup_name p), (stored_lookup_nisn p),
    (stored_lookup_major p), (stored_lookup_source p).
  unfold try_except, call_requests_post, call_raise_for_status, emit, lift.
  unfold mbind, M_bind, mret, M_ret, forward_json, status_of_post; simpl.
  destruct (requests_post W url _ 10) as [e|[[e|]]]; simpl; done.
Qed.

Lemma forwarding_endpoint_Some url :
  forwarding_endpoint W = Some url
  ↔ getenv W "GOOGLE_SHEETS_WEBAPP_URL" = Some url ∧ url ≠ "".
Proof.
  unfold forwarding_endpoint.
  destruct (getenv W "GOOGLE_SHEETS_WEBAPP_URL") as [u|]; [| intuition congruence].
  destruct (String.eqb_spec u "") as [->|Hne]; intuition congruence.
Qed.

Lemma forwarding_endpoint_None :
  forwarding_endpoint W = None
  ↔ getenv W "GOOGLE_SHEETS_WEBAPP_URL" = None
    ∨ getenv W "GOOGLE_SHEETS_WEBAPP_URL" = Some "".
Proof.
  unfold forwarding_endpoint.
  destruct (getenv W "GOOGLE_SHEETS_WEBAPP_URL") as [u|]; [| intuition congruence].
  destruct (String.eqb_spec u "") as [->|Hne]; intuition congruence.
Qed.

Lemma forward_run p dt st :
  forward W (<["scanned_at" := PDatetime dt]> (model_dump p)) (PDatetime dt) st
  = match forwarding_endpoint W with
    | Some url =>
        (inr (status_of_post (requests_post W url (forward_json W p dt) 10)),
         {| ticks := ticks st;
            trace := (trace st ++ [EvPost url (forward_json W p dt) 10])%list |})
    | None => (inr "skipped", st)
    end.
Proof.
  unfold forward, forwarding_endpoint.
  destruct (getenv W "GOOGLE_SHEETS_WEBAPP_URL") as [u|]; [| done].
  destruct (String.eqb u ""); simpl; [done |].
  apply forward_to_sheets_run.
Qed.

(** The whole handler: it returns a response, it reads the clock at most
    once, it records one insert and then the events of the forwarding
    step. *)
Lemma create_attendance_run p st :
  ∃ dt n,
    create_attendance W p st
      = (inr (<["ok" := PBool true]>
             (<["id" := match create_document W "studentattendance"
                                (<["scanned_at" := PDatetime dt]> (model_dump p))
                        with inl _ => PNone | inr v => v end]>
             (<["forward_to_sheets" :=
                  PStr (match forwarding_endpoint W with
                        | Some url =>
                            status_of_post
                              (requests_post W url (forward_json W p dt) 10)
                        | None => "skipped"
                        end)]> ∅))),
         {| ticks := n;
            trace := (trace st ++
                      EvInsert "studentattendance"
                        (<["scanned_at" := PDatetime dt]> (model_dump p))
                      :: forward_events W p dt)%list |})
    ∧ (scanned_at p = ScanNone → dt = utcnow W (ticks st))
    ∧ (∀ d, scanned_at p = ScanDatetime d → dt = d)
    ∧ (∀ s d, scanned_at p = ScanStr s → s ≠ "" →
         fromisoformat W s = inr d → dt = d)
    ∧ (∀ s e, scanned_at p = ScanStr s →
         fromisoformat W s = inl e → dt = utcnow W (ticks st)).
Proof.
  destruct (resolve_scanned_at_run p st) as (dt & n & Hrun & Hdt).
  exists dt, n. split; [| exact Hdt].
  unfold create_attendance, mbind at 1, M_bind at 1. rewrite Hrun.
  unfold mbind at 1, M_bind at 1. rewrite persist_run.
  unfold mbind at 1, M_bind at 1. rewrite forward_run.
  unfold forward_events. simpl.
  destruct (forwarding_endpoint W) as [url|]; simpl.
  - unfold mret, M_ret. by rewrite <- app_assoc.
  - done.
Qed.

End CreateAttendance.

(** ** POST /attendance: the claims *)

(** The examples of the spec: a submission with store and endpoint up, with
    no endpoint configured, and with an endpoint that answers 500. *)
Example create_attendance_all_up :
  (create_attendance Demo.all_up Demo.ana Demo.start).1
  = inr (<["ok" := PBool true]>
        (<["id" := PStr "65f0a3"]>
        (<["forward_to_sheets" := PStr "ok"]> ∅))).
Proof. vm_compute. reflexivity. Qed.

Example create_attendance_no_endpoint :
  (create_attendance DemoListing.two_documents Demo.ana Demo.start).1
  = inr (<["ok" := PBool true]>
        (<["id" := PStr "65f0a3"]>
        (<["forward_to_sheets" := PStr "skipped"]> ∅))).
Proof. vm_compute. reflexivity. Qed.

Example create_attendance_endpoint_rejects :
  (create_attendance Demo.endpoint_rejects Demo.ana Demo.start).1
  = inr (<["ok" := PBool true]>
        (<["id" := PStr "65f0a3"]>
        (<["forward_to_sheets" :=
             PStr "error: 500 Server Error: Internal Server Error"]> ∅))).
Proof. vm_compute. reflexivity. Qed.

(** C1: create_attendance returns a response whose [ok] is [True] for every
    submission in every world, whatever the insert and the forwarding call
    do, raising included; the handler itself never raises. *)
Theorem create_attendance_always_ok (W : World) (p : AttendanceIn) (st : state) :
  ∃ r st', create_attendance W p st = (inr r, st')
           ∧ r !! "ok" = Some (PBool true).
Proof.
  destruct (create_attendance_run W p st) as (dt & n & Hrun & _).
  eexists _, _. split; [exact Hrun |]. apply lookup_insert_eq.
Qed.

(** C2: the [forward_to_sheets] field of the response is ["skipped"] when no
    endpoint is configured (the variable is unset or empty), ["ok"] when the
    post was made and neither it nor [raise_for_status] raised, and otherwise
    ["error: "] followed by the first 120 characters of the exception's
    message, which is a text of at most 127 characters that starts with
    ["error: "]. *)
Theorem forward_status_classified (W : World) (p : AttendanceIn) (st : state) :
  ∃ r st' status,
    create_attendance W p st = (inr r, st')
    ∧ r !! "forward_to_sheets" = Some (PStr status)
    ∧ ( ((getenv W "GOOGLE_SHEETS_WEBAPP_URL" = None
          ∨ getenv W "GOOGLE_SHEETS_WEBAPP_URL" = Some "")
         ∧ status = "skipped")
      ∨ (∃ url js resp,
           getenv W "GOOGLE_SHEETS_WEBAPP_URL" = Some url ∧ url ≠ ""
           ∧ EvPost url js 10 ∈ trace st'
           ∧ requests_post W url js 10 = inr resp
           ∧ raise_for_status resp = None
           ∧ status = "ok")
      ∨ (∃ url js e,
           getenv W "GOOGLE_SHEETS_WEBAPP_URL" = Some url ∧ url ≠ ""
           ∧ EvPost url js 10 ∈ trace st'
           ∧ (requests_post W url js 10 = inl e
              ∨ ∃ resp, requests_post W url js 10 = inr resp
                        ∧ raise_for_status resp = Some e)
           ∧ status = "error: " +:+ str_prefix 120 (exn_str e)
           ∧ String.prefix "error: " status = true
           ∧ (String.length status ≤ 127)%nat) ).
Proof.
  destruct (create_attendance_run W p st) as (dt & n & Hrun & _).
  eexists _, _, _. split; [exact Hrun |].
  split; [by simplify_map_eq |].
  unfold forward_events.
  destruct (forwarding_endpoint W) as [url|] eqn:Hurl.
  2: { left. split; [by apply forwarding_endpoint_None | done]. }
  apply forwarding_endpoint_Some in Hurl as [Hurl Hne].
  right.
  assert (EvPost url (forward_json W p dt) 10
          ∈ (trace st ++ [EvInsert "studentattendance"
                            (<["scanned_at" := PDatetime dt]> (model_dump p));
                          EvPost url (forward_json W p dt) 10])%list) as Hin.
  { rewrite elem_of_app, !elem_of_cons. auto. }
  assert (∀ e, String.prefix "error: " ("error: " +:+ str_prefix 120 (exn_str e))
               = true
             ∧ (String.length ("error: " +:+ str_prefix 120 (exn_str e)) ≤ 127)%nat)
    as Herr.
  { intros e. split; [apply string_prefix_append |].
    rewrite string_length_append.
    pose proof (str_prefix_length 120 (exn_str e)). simpl. lia. }
  destruct (requests_post W url (forward_json W p dt) 10) as [e|resp] eqn:Hpost;
    simpl.
  - right. exists url, (forward_json W p dt), e.
    destruct (Herr e). rewrite Hpost. auto 10.
  - destruct (raise_for_status resp) as [e|] eqn:Hraise.
    + right. exists url, (forward_json W p dt), e.
      destruct (Herr e). rewrite Hpost. eauto 12.
    + left. exists url, (forward_json W p dt), resp. by rewrite Hpost.
Qed.


Lemma post_attendance_validated (W : World) parse nm ni mj sc src p st :
  AttendanceIn_validate parse nm ni mj sc src = inr p →
  post_attendance W parse nm ni mj sc src st = create_attendance W p st.
Proof.
  intros Hp. unfold post_attendance, lift, mbind at 1, M_bind at 1.
  by rewrite Hp.
Qed.




(** C6: when a forwarding endpoint is configured, exactly one post is made,
    to that endpoint and with a timeout of 10 seconds; its JSON object has
    exactly the keys [name], [nisn] (the spec's id_number), [major],
    [scanned_at] and [source], holding the submission's values and the
    timestamp of the stored document as ISO-8601 text. *)
Theorem forward_payload_fields (W : World) (p : AttendanceIn) (st : state)
    (url : string) :
  getenv W "GOOGLE_SHEETS_WEBAPP_URL" = Some url →
  url ≠ "" →
  ∃ r st' doc js dt,
    create_attendance W p st = (inr r, st')
    ∧ trace st'
      = (trace st ++ [EvInsert "studentattendance" doc; EvPost url js 10])%list
    ∧ dom js = ({["name"; "nisn"; "major"; "scanned_at"; "source"]} : gset string)
    ∧ js !! "name" = Some (PStr (name p))
    ∧ js !! "nisn" = Some (PStr (nisn p))
    ∧ js !! "major" = Some (PStr (major p))
    ∧ doc !! "scanned_at" = Some (PDatetime dt)
    ∧ js !! "scanned_at" = Some (PStr (isoformat W dt))
    ∧ js !! "source" = Some (optional_str (source p)).
Proof.
  intros Hurl Hne.
  destruct (create_attendance_run W p st) as (dt & n & Hrun & _).
  unfold forward_events in Hrun.
  rewrite (proj2 (forwarding_endpoint_Some W url) (conj Hurl Hne)) in Hrun.
  eexists _, _, _, _, dt. split; [exact Hrun |].
  split; [reflexivity |].
  split.
  { unfold forward_json. rewrite !dom_insert_L, dom_empty_L. set_solver. }
  unfold forward_json. by simplify_map_eq.
Qed.

Lemma forward_payload_fields_witness :
  ∃ r st' doc js dt,
    create_attendance Demo.storage_down Demo.ana Demo.start = (inr r, st')
    ∧ trace st'
      = (trace Demo.start ++
         [EvInsert "studentattendance" doc;
          EvPost "https://sheets.example/hook" js 10])%list
    ∧ dom js = ({["name"; "nisn"; "major"; "scanned_at"; "source"]} : gset string)
    ∧ js !! "name" = Some (PStr "Ana")
    ∧ js !! "nisn" = Some (PStr "123")
    ∧ js !! "major" = Some (PStr "CS")
    ∧ doc !! "scanned_at" = Some (PDatetime dt)
    ∧ js !! "scanned_at" = Some (PStr (isoformat Demo.storage_down dt))
    ∧ js !! "source" = Some (PStr "qr").
Proof.
  apply (forward_payload_fields Demo.storage_down Demo.ana Demo.start
           "https://sheets.example/hook").
  - reflexivity.
  - discriminate.
Defined.

(** C7: the handler hands one and the same [datetime] to the store (as the
    document's [scanned_at]) and to the endpoint (as its ISO-8601 text); it is
    never [None], and it is the clock's reading when the submission has no
    [scanned_at]. *)
Theorem scanned_at_resolved_at_both_boundaries (W : World) (p : AttendanceIn)
    (st : state) :
  ∃ dt r st' doc,
    create_attendance W p st = (inr r, st')
    ∧ trace st'
      = (trace st ++
         EvInsert "studentattendance" doc ::
         match forwarding_endpoint W with
         | Some url => [EvPost url (forward_json W p dt) 10]
         | None => []
         end)%list
    ∧ doc !! "scanned_at" = Some (PDatetime dt)
    ∧ forward_json W p dt !! "scanned_at" = Some (PStr (isoformat W dt))
    ∧ (scanned_at p = ScanNone → dt = utcnow W (ticks st)).
Proof.
  destruct (create_attendance_run W p st) as (dt & n & Hrun & Hnone & _).
  eexists dt, _, _, _. split; [exact Hrun |].
  split; [reflexivity |].
  split; [apply lookup_insert_eq |].
  split; [| exact Hnone].
  unfold forward_json. by simplify_map_eq.
Qed.

(** C8: a submission built without [source] has [source = "qr"], and both
    the stored document and the forwarded payload carry ["qr"]. *)
Theorem source_defaults_to_qr (W : World) (nm ni mj : string)
    (sc : option scanned_at_in) (st : state) :
  let p := AttendanceIn_new nm ni mj sc None in
  source p = Some "qr"
  ∧ ∃ dt r st' doc,
      create_attendance W p st = (inr r, st')
      ∧ trace st'
        = (trace st ++
           EvInsert "studentattendance" doc ::
           match forwarding_endpoint W with
           | Some url => [EvPost url (forward_json W p dt) 10]
           | None => []
           end)%list
      ∧ doc !! "source" = Some (PStr "qr")
      ∧ forward_json W p dt !! "source" = Some (PStr "qr").
Proof.
  intros p. split; [reflexivity |].
  destruct (create_attendance_run W p st) as (dt & n & Hrun & _).
  eexists dt, _, _, _. split; [exact Hrun |].
  split; [reflexivity |].
  split; [by rewrite stored_lookup_source |].
  unfold forward_json. by simplify_map_eq.
Qed.

(** ** Sorting *)

Section Sorting.
Context (W : World) {A : Type} (key : A → pyval).

Lemma py_lt_asym a b :
  is_datetime a = false → py_lt W a b = inr true → py_lt W b a = inr false.
Proof.
  destruct a as [|[]| | | |], b as [|[]| | | |]; simpl; try done;
    intros _ [= H]; f_equal;
    try (by apply string_ltb_asym); lia.
Qed.

Lemma string_ltb_chain x y z :
  String.ltb x y = true → String.ltb z y = false → String.ltb z x = false.
Proof.
  intros Hxy Hzy. destruct (String.ltb z x) eqn:Hzx; [| done].
  unfold String.ltb in *.
  destruct (String.compare z x) eqn:Hc1; try done.
  destruct (String.compare x y) eqn:Hc2; try done.
  by rewrite (string_compare_trans Lt z x y) in Hzy.
Qed.

Lemma py_lt_chain x y z :
  is_datetime y = false →
  py_lt W x y = inr true → py_lt W z y = inr false → py_lt W z x = inr false.
Proof.
  intros Hy Hxy Hzy.
  destruct y as [|[]| | | |], x as [|[]| | | |]; simpl in *; try done;
    destruct z as [|[]| | | |]; simpl in *; try done;
    apply (inj inr) in Hxy, Hzy; f_equal;
    try (by eapply string_ltb_chain); lia.
Qed.

Lemma insert_sorted_Permutation x l l' :
  insert_sorted W key x l = inr l' → l' ≡ₚ x :: l.
Proof.
  revert l'. induction l as [|y l IH]; intros l'; simpl.
  - by intros [= <-].
  - unfold mbind, Res_bind.
    destruct (py_lt W (key x) (key y)) as [e|[]]; [done | by intros [= <-] |].
    destruct (insert_sorted W key x l) as [e|l'']; [done |].
    intros [= <-]. rewrite (IH l'' eq_refl). apply Permutation_swap.
Qed.

Lemma insert_sorted_StronglySorted x l l' :
  (plain_key key) x → Forall (plain_key key) l →
  StronglySorted (ascending W key) l →
  insert_sorted W key x l = inr l' →
  StronglySorted (ascending W key) l'.
Proof.
  intros Hx. revert l'.
  induction l as [|y l IH]; intros l' Hl Hsorted; simpl.
  - intros [= <-]. by repeat constructor.
  - apply Forall_cons in Hl as [Hy Hl].
    apply StronglySorted_inv in Hsorted as [Hsorted Hhd].
    unfold mbind, Res_bind.
    destruct (py_lt W (key x) (key y)) as [e|[]] eqn:Hlt; [done | |].
    + intros [= <-]. constructor; [by constructor |].
      constructor; [by apply py_lt_asym |].
      eapply Forall_impl; [exact Hhd |]. intros z Hz.
      by eapply py_lt_chain.
    + destruct (insert_sorted W key x l) as [e|l''] eqn:Hins; [done |].
      intros [= <-]. constructor; [by apply IH |].
      rewrite (insert_sorted_Permutation _ _ _ Hins). by constructor.
Qed.

Lemma sort_ascending_raise e l :
  foldl (λ acc x, acc ← acc; insert_sorted W key x acc) (inl e) l = inl e.
Proof. by induction l. Qed.

Lemma sort_ascending_from acc l r :
  Forall (plain_key key) acc → Forall (plain_key key) l →
  StronglySorted (ascending W key) acc →
  foldl (λ acc x, acc ← acc; insert_sorted W key x acc) (inr acc) l = inr r →
  StronglySorted (ascending W key) r ∧ r ≡ₚ (acc ++ l)%list.
Proof.
  revert acc. induction l as [|x l IH]; intros acc Hacc Hl Hsorted; simpl.
  - intros [= <-]. by rewrite app_nil_r.
  - apply Forall_cons in Hl as [Hx Hl].
    destruct (insert_sorted W key x acc) as [e|acc'] eqn:Hins.
    + by rewrite sort_ascending_raise.
    + intros Hr.
      pose proof (insert_sorted_Permutation _ _ _ Hins) as Hperm.
      apply IH in Hr as [? Hr]; [split; [done |] | | done |].
      * rewrite Hr, Hperm. by rewrite <- Permutation_middle.
      * apply Forall_forall. intros z Hz. rewrite Hperm in Hz.
        apply elem_of_cons in Hz as [->|Hz]; [done |].
        rewrite Forall_forall in Hacc. by apply Hacc.
      * exact (insert_sorted_StronglySorted x acc acc' Hx Hacc Hsorted Hins).
Qed.

Lemma StronglySorted_reverse (R : relation A) l :
  StronglySorted R l → StronglySorted (flip R) (reverse l).
Proof.
  induction 1 as [|x l Hl IH Hx]; [exact (SSorted_nil _) |].
  rewrite reverse_cons. apply StronglySorted_app_2; [| done |].
  - intros y z Hy ->%list_elem_of_singleton. rewrite elem_of_reverse in Hy.
    rewrite Forall_forall in Hx. unfold flip. by apply Hx.
  - repeat constructor.
Qed.

Lemma StronglySorted_lookup (R : relation A) l i j x y :
  StronglySorted R l → l !! i = Some x → l !! j = Some y → (i < j)%nat → R x y.
Proof.
  intros Hl. revert i j. induction Hl as [|a l Hl IH Ha]; intros i j; [done |].
  destruct i as [|i], j as [|j]; simpl; try lia.
  - intros [= <-] Hy _. rewrite Forall_forall in Ha.
    apply Ha. by eapply list_elem_of_lookup_2.
  - intros Hx Hy Hij. apply (IH i j); [done | done | lia].
Qed.

(** A successful sort returns the same elements, with no element before one
    of a greater key. *)
Lemma list_sort_reverse_spec l r :
  Forall (plain_key key) l →
  list_sort_reverse W key l = inr r →
  r ≡ₚ l
  ∧ ∀ i j x y, r !! i = Some x → r !! j = Some y → (i < j)%nat → descending W key x y.
Proof.
  intros Hl. unfold list_sort_reverse, mbind, Res_bind.
  destruct (sort_ascending W key (reverse l)) as [e|l'] eqn:Hsort; [done |].
  intros [= <-].
  apply (sort_ascending_from []) in Hsort as [Hsorted Hperm];
    [| done | by apply Forall_reverse | constructor].
  split.
  - by rewrite reverse_Permutation, Hperm, reverse_Permutation.
  - intros i j x y Hi Hj Hij.
    exact (StronglySorted_lookup _ _ _ _ _ _ (StronglySorted_reverse _ _ Hsorted)
             Hi Hj Hij).
Qed.

(** Keys that are all [str] can be compared: the sort does not raise. *)
Lemma insert_sorted_text x l :
  (text_key key) x → Forall (text_key key) l →
  ∃ l', insert_sorted W key x l = inr l'.
Proof.
  intros [s Hs]. induction l as [|y l IH]; intros Hl; simpl; [by eexists |].
  apply Forall_cons in Hl as [[t Ht] Hl].
  rewrite Hs, Ht. unfold mbind, Res_bind; simpl.
  destruct (String.ltb s t); [by eexists |].
  destruct (IH Hl) as [l' ->]. by eexists.
Qed.

Lemma sort_ascending_text acc l :
  Forall (text_key key) acc → Forall (text_key key) l →
  ∃ r, foldl (λ acc x, acc ← acc; insert_sorted W key x acc) (inr acc) l
       = inr r.
Proof.
  revert acc. induction l as [|x l IH]; intros acc Hacc Hl; simpl;
    [by eexists |].
  apply Forall_cons in Hl as [Hx Hl].
  destruct (insert_sorted_text x acc Hx Hacc) as [acc' Hins]. rewrite Hins.
  apply IH; [| done].
  apply Forall_forall. intros z Hz.
  rewrite (insert_sorted_Permutation _ _ _ Hins) in Hz.
  apply elem_of_cons in Hz as [->|Hz]; [done |].
  rewrite Forall_forall in Hacc. by apply Hacc.
Qed.

Lemma list_sort_reverse_text l :
  Forall (text_key key) l → ∃ r, list_sort_reverse W key l = inr r.
Proof.
  intros Hl. unfold list_sort_reverse, sort_ascending.
  destruct (sort_ascending_text [] (reverse l)) as [r Hr];
    [done | by apply Forall_reverse |].
  rewrite Hr. by eexists.
Qed.

End Sorting.

(** ** GET /attendance *)

Section ListAttendance.
Context (W : World).

Lemma foldl_snoc_fmap {A B} (f : A → B) (acc : list B) (l : list A) :
  foldl (λ result d, (result ++ [f d])%list) acc l = (acc ++ (f <$> l))%list.
Proof.
  revert acc. induction l as [|x l IH]; intros acc; simpl.
  - by rewrite app_nil_r.
  - by rewrite IH, <- app_assoc.
Qed.

Lemma isoformat_field_lookup_ne k k' d :
  k ≠ k' → isoformat_field W k d !! k' = d !! k'.
Proof.
  intros Hne. unfold isoformat_field.
  destruct (dict_get d k PNone); try done. by rewrite lookup_insert_ne.
Qed.

Lemma isoformat_field_not_datetime k d dflt :
  is_datetime dflt = false →
  is_datetime (dict_get (isoformat_field W k d) k dflt) = false.
Proof.
  intros Hdflt. unfold isoformat_field, dict_get.
  destruct (d !! k) as [v|] eqn:Hk; simpl.
  - destruct v; simpl; rewrite ?lookup_insert_eq, ?Hk; done.
  - by rewrite Hk.
Qed.

(** After the loop body no document has a [datetime] under [created_at]. *)
Lemma convert_document_plain_key d :
  plain_key created_at_key (convert_document W d).
Proof.
  unfold plain_key, created_at_key, convert_document, dict_get.
  rewrite isoformat_field_lookup_ne by done.
  by apply isoformat_field_not_datetime.
Qed.

(** A document whose [created_at] is missing, a [datetime] or a [str] has a
    [str] as its key after the loop body. *)
Lemma convert_document_text_key d :
  d !! "created_at" = None
  ∨ (∃ t, d !! "created_at" = Some (PDatetime t))
  ∨ (∃ s, d !! "created_at" = Some (PStr s)) →
  text_key created_at_key (convert_document W d).
Proof.
  intros Hd.
  unfold text_key, created_at_key, convert_document, dict_get.
  rewrite isoformat_field_lookup_ne by done.
  unfold isoformat_field at 1, dict_get.
  rewrite isoformat_field_lookup_ne by done.
  rewrite lookup_insert_ne by done. rewrite lookup_delete_ne by done.
  destruct Hd as [Hd|[[t Hd]|[s Hd]]]; rewrite Hd; simpl.
  - rewrite isoformat_field_lookup_ne by done.
    rewrite lookup_insert_ne by done. rewrite lookup_delete_ne by done.
    rewrite Hd. by eexists.
  - rewrite lookup_insert_eq. by eexists.
  - rewrite isoformat_field_lookup_ne by done.
    rewrite lookup_insert_ne by done. rewrite lookup_delete_ne by done.
    rewrite Hd. by eexists.
Qed.

(** With such documents nothing is lost: the listing is the converted
    documents in some order. *)
Lemma listing_complete limit docs :
  get_documents W "studentattendance" ∅ limit = inr docs →
  Forall (λ d : dict,
            d !! "created_at" = None
            ∨ (∃ t, d !! "created_at" = Some (PDatetime t))
            ∨ (∃ s, d !! "created_at" = Some (PStr s))) docs →
  listing W limit ≡ₚ convert_document W <$> docs.
Proof.
  intros Hdocs Hkeys. unfold listing. rewrite Hdocs.
  destruct (list_sort_reverse_text W created_at_key (convert_document W <$> docs))
    as [r Hr].
  { apply Forall_fmap. eapply Forall_impl; [exact Hkeys |].
    intros d Hd. by apply convert_document_text_key. }
  rewrite Hr. apply list_sort_reverse_spec in Hr as [Hperm _]; [done |].
  apply Forall_fmap, Forall_forall. intros d _.
  apply convert_document_plain_key.
Qed.

Lemma list_attendance_run limit st :
  list_attendance W limit st
  = (inr (listing W limit),
     {| ticks := ticks st;
        trace := (trace st ++ [EvFind "studentattendance" ∅ limit])%list |}).
Proof.
  unfold list_attendance, listing, try_except, call_get_documents, emit, lift.
  unfold mbind, M_bind; simpl.
  destruct (get_documents W "studentattendance" ∅ limit) as [e|docs]; [done |].
  rewrite foldl_snoc_fmap; simpl.
  by destruct (list_sort_reverse W created_at_key (convert_document W <$> docs)).
Qed.


End ListAttendance.

(** Three documents come back latest first. *)
Example list_attendance_latest_first :
  (λ d : dict, (d !! "id", d !! "created_at"))
    <$> listing DemoListing.three_documents 3
  = [(Some (PStr "65f0a3"), Some (PStr "2024-05-17T12:00:03"));
     (Some (PStr "65f0a2"), Some (PStr "2024-05-17T12:00:02"));
     (Some (PStr "65f0a1"), Some (PStr "2024-05-17T12:00:01"))].
Proof. vm_compute. reflexivity. Qed.




(** C4: when every call of the store raises, list_attendance returns the
    empty list and create_attendance returns a response whose [id] is
    [None]; neither raises. *)
Theorem storage_unavailable (W : World) (p : AttendanceIn) (limit : Z)
    (st : state) :
  (∀ c d, ∃ e, create_document W c d = inl e) →
  (∀ c f l, ∃ e, get_documents W c f l = inl e) →
  (∃ st', list_attendance W limit st = (inr [], st'))
  ∧ (∃ r st', create_attendance W p st = (inr r, st')
              ∧ r !! "id" = Some PNone).
Proof.
  intros Hcreate Hget. split.
  - rewrite list_attendance_run. eexists. unfold listing.
    by destruct (Hget "studentattendance" ∅ limit) as [e ->].
  - destruct (create_attendance_run W p st) as (dt & n & Hrun & _).
    eexists _, _. split; [exact Hrun |].
    destruct (Hcreate "studentattendance"
                (<["scanned_at" := PDatetime dt]> (model_dump p))) as [e ->].
    by simplify_map_eq.
Qed.

Lemma storage_unavailable_witness :
  (∃ st', list_attendance Demo.storage_down 50 Demo.start = (inr [], st'))
  ∧ (∃ r st', create_attendance Demo.storage_down Demo.ana Demo.start
              = (inr r, st')
              ∧ r !! "id" = Some PNone).
Proof.
  apply (storage_unavailable Demo.storage_down Demo.ana 50 Demo.start).
  - intros c d. eexists. reflexivity.
  - intros c f l. eexists. reflexivity.
Defined.

(** ** GET /test *)

(** The handler returns the response built by the probe, with the two
    configuration fields written last; the state is untouched. *)
Lemma test_database_run (W : World) (st : state) :
  ∃ r0 status names,
    test_database W st
      = (inr (<["database_name" := set_or_not W "DATABASE_NAME"]>
             (<["database_url" := set_or_not W "DATABASE_URL"]> r0)), st)
    ∧ r0 !! "backend" = Some (DStr "✅ Running")
    ∧ r0 !! "database" = Some (DStr status)
    ∧ r0 !! "collections" = Some (DList names)
    ∧ (length names ≤ 10)%nat
    ∧ (∀ e, import_db W = inl e → is_ImportError e = true →
         status = "❌ Database module not found (run enable-database first)")
    ∧ (∀ e, import_db W = inl e → is_ImportError e = false →
         status = "❌ Error: " +:+ str_prefix 50 (exn_str e))
    ∧ (import_db W = inr None → status = "⚠️  Available but not initialized")
    ∧ (∀ db e, import_db W = inr (Some db) →
         list_collection_names db = inl e →
         status = "⚠️  Connected but Error: " +:+ str_prefix 50 (exn_str e))
    ∧ (∀ db l, import_db W = inr (Some db) →
         list_collection_names db = inr l →
         status = "✅ Connected & Working" ∧ names = take 10 l).
Proof.
  unfold test_database, try_except, lift, set_or_not.
  unfold mbind, M_bind, mret, M_ret.
  destruct (import_db W) as [e|[db|]] eqn:Himport; simpl.
  - destruct (is_ImportError e) eqn:He; simpl;
      eexists _, _, []; (split; [reflexivity |]);
      (repeat (split; [by simplify_map_eq |]));
      (split; [simpl; lia |]); repeat split; intros; congruence.
  - destruct (list_collection_names db) as [e|l] eqn:Hlist; simpl.
    + eexists _, _, []; (split; [reflexivity |]);
        (repeat (split; [by simplify_map_eq |]));
        (split; [simpl; lia |]); repeat split; intros; congruence.
    + eexists _, _, (take 10 l); (split; [reflexivity |]);
        (repeat (split; [by simplify_map_eq |]));
        (split; [rewrite length_take; lia |]); repeat split; intros; congruence.
  - eexists _, _, []; (split; [reflexivity |]);
      (repeat (split; [by simplify_map_eq |]));
      (split; [simpl; lia |]); repeat split; intros; congruence.
Qed.

(** [bool(os.getenv(k))] in terms of the environment. *)
Lemma env_is_set_true (W : World) k v :
  getenv W k = Some v → v ≠ "" → env_is_set W k = true.
Proof.
  intros Hk Hv. unfold env_is_set. rewrite Hk.
  by destruct (String.eqb_spec v "").
Qed.

Lemma env_is_set_false (W : World) k :
  getenv W k = None ∨ getenv W k = Some "" → env_is_set W k = false.
Proof. unfold env_is_set. by intros [->| ->]. Qed.

(** C9: test_database never raises.  A failed import, a [db] that is
    [None] and a failed enumeration of the collections each end up as a text
    in the [database] field; at most 10 collection names are listed; and the
    fields [database_url] and [database_name] are ["✅ Set"] when
    [os.getenv] gives a non-empty value for DATABASE_URL and DATABASE_NAME,
    and ["❌ Not Set"] when the variable is unset or empty. *)
Theorem test_database_never_raises (W : World) (st : state) :
  ∃ r st' status names,
    test_database W st = (inr r, st')
    ∧ r !! "database" = Some (DStr status)
    ∧ r !! "collections" = Some (DList names)
    ∧ (length names ≤ 10)%nat
    ∧ (∀ v, getenv W "DATABASE_URL" = Some v → v ≠ "" →
         r !! "database_url" = Some (DStr "✅ Set"))
    ∧ (getenv W "DATABASE_URL" = None ∨ getenv W "DATABASE_URL" = Some "" →
         r !! "database_url" = Some (DStr "❌ Not Set"))
    ∧ (∀ v, getenv W "DATABASE_NAME" = Some v → v ≠ "" →
         r !! "database_name" = Some (DStr "✅ Set"))
    ∧ (getenv W "DATABASE_NAME" = None ∨ getenv W "DATABASE_NAME" = Some "" →
         r !! "database_name" = Some (DStr "❌ Not Set"))
    ∧ (∀ e, import_db W = inl e → is_ImportError e = true →
         status = "❌ Database module not found (run enable-database first)")
    ∧ (∀ e, import_db W = inl e → is_ImportError e = false →
         status = "❌ Error: " +:+ str_prefix 50 (exn_str e))
    ∧ (import_db W = inr None → status = "⚠️  Available but not initialized")
    ∧ (∀ db e, import_db W = inr (Some db) →
         list_collection_names db = inl e →
         status = "⚠️  Connected but Error: " +:+ str_prefix 50 (exn_str e))
    ∧ (∀ db l, import_db W = inr (Some db) →
         list_collection_names db = inr l →
         status = "✅ Connected & Working" ∧ names = take 10 l).
Proof.
  destruct (test_database_run W st)
    as (r0 & status & names & Hrun & _ & Hdb & Hcoll & Hlen & Hcases).
  eexists _, _, status, names. split; [exact Hrun |].
  unfold set_or_not.
  split; [by simplify_map_eq |]. split; [by simplify_map_eq |].
  split; [exact Hlen |].
  split.
  { intros v Hv Hne. rewrite (env_is_set_true W _ v Hv Hne).
    by simplify_map_eq. }
  split.
  { intros Hv. rewrite (env_is_set_false W _ Hv). by simplify_map_eq. }
  split.
  { intros v Hv Hne. rewrite (env_is_set_true W _ v Hv Hne).
    by simplify_map_eq. }
  split.
  { intros Hv. rewrite (env_is_set_false W _ Hv). by simplify_map_eq. }
  exact Hcases.
Qed.

(** C10: whatever the import of [db] gives, the fields [database_url] and
    [database_name] of the response follow [os.getenv] alone: ["✅ Set"] for
    a non-empty value of DATABASE_URL and DATABASE_NAME, ["❌ Not Set"] for
    an unset or empty one.  The values written during the probe
    (["✅ Configured"], the name of the database) are not in the response. *)
Theorem configuration_fields_from_environment (W : World)
    (probe : exn + option database) (st : state) :
  ∃ r st',
    test_database (with_import_db W probe) st = (inr r, st')
    ∧ (∀ v, getenv W "DATABASE_URL" = Some v → v ≠ "" →
         r !! "database_url" = Some (DStr "✅ Set"))
    ∧ (getenv W "DATABASE_URL" = None ∨ getenv W "DATABASE_URL" = Some "" →
         r !! "database_url" = Some (DStr "❌ Not Set"))
    ∧ (∀ v, getenv W "DATABASE_NAME" = Some v → v ≠ "" →
         r !! "database_name" = Some (DStr "✅ Set"))
    ∧ (getenv W "DATABASE_NAME" = None ∨ getenv W "DATABASE_NAME" = Some "" →
         r !! "database_name" = Some (DStr "❌ Not Set"))
    ∧ r !! "database_url" ≠ Some (DStr "✅ Configured")
    ∧ (∀ db n, probe = inr (Some db) → db_name db = Some n →
         n ≠ "✅ Set" → n ≠ "❌ Not Set" →
         r !! "database_name" ≠ Some (DStr n)).
Proof.
  destruct (test_database_run (with_import_db W probe) st)
    as (r0 & status & names & Hrun & _).
  eexists _, _. split; [exact Hrun |].
  unfold set_or_not.
  rewrite lookup_insert_ne by done. rewrite !lookup_insert_eq.
  split.
  { intros v Hv Hne.
    by rewrite (env_is_set_true (with_import_db W probe) _ v Hv Hne). }
  split.
  { intros Hv. by rewrite (env_is_set_false (with_import_db W probe) _ Hv). }
  split.
  { intros v Hv Hne.
    by rewrite (env_is_set_true (with_import_db W probe) _ v Hv Hne). }
  split.
  { intros Hv. by rewrite (env_is_set_false (with_import_db W probe) _ Hv). }
  split.
  - by destruct (env_is_set (with_import_db W probe) "DATABASE_URL").
  - intros db n _ _ Hset Hnot.
    destruct (env_is_set (with_import_db W probe) "DATABASE_NAME"); congruence.
Qed.

(** * Further properties *)

(** ** POST /attendance *)

Section CreateAttendanceMore.
Context (W : World).

Lemma str_prefix_length_min n s :
  String.length (str_prefix n s) = (n `min` String.length s)%nat.
Proof.
  unfold str_prefix. revert s.
  induction n as [|n IH]; intros [|c s]; simpl; try done.
  by rewrite IH.
Qed.

Lemma str_prefix_short n s :
  (String.length s ≤ n)%nat → str_prefix n s = s.
Proof.
  unfold str_prefix. revert s.
  induction n as [|n IH]; intros [|c s]; simpl; try done; [lia |].
  intros Hlen. rewrite IH; [done | lia].
Qed.

(** The timestamp step with its clock: the clock is read when the field is
    absent, the empty text or a text that does not parse, and not otherwise;
    the trace is left alone. *)
Lemma resolve_scanned_at_clock p st :
  ∃ dt n,
    resolve_scanned_at W (model_dump p) st
      = (inr (PDatetime dt), {| ticks := n; trace := trace st |})
    ∧ ( (n = ticks st
         ∧ (scanned_at p = ScanDatetime dt
            ∨ ∃ s, scanned_at p = ScanStr s ∧ s ≠ ""
                   ∧ fromisoformat W s = inr dt))
      ∨ (n = S (ticks st) ∧ dt = utcnow W (ticks st)
         ∧ (scanned_at p = ScanNone ∨ scanned_at p = ScanStr ""
            ∨ ∃ s e, scanned_at p = ScanStr s ∧ fromisoformat W s = inl e)) ).
Proof.
  unfold resolve_scanned_at, dict_get. rewrite model_dump_scanned_at.
  destruct st as [n tr].
  destruct (scanned_at p) as [|d|[|c s]] eqn:Hs; simpl.
  - exists (utcnow W n), (S n). split; [done |]. right. auto.
  - exists d, n. split; [done |]. left. auto.
  - exists (utcnow W n), (S n). split; [done |]. right. auto.
  - unfold mbind, M_bind, try_except, lift, now; simpl.
    destruct (fromisoformat W (String c s)) as [e|d] eqn:Hp; simpl.
    + exists (utcnow W n), (S n). split; [done |]. right. eauto 10.
    + exists d, n. split; [done |]. left. split; [done |]. right.
      exists (String c s). done.
Qed.

Lemma create_attendance_clock p st :
  ∃ dt n,
    create_attendance W p st
      = (inr (<["ok" := PBool true]>
             (<["id" := match create_document W "studentattendance"
                                (<["scanned_at" := PDatetime dt]> (model_dump p))
                        with inl _ => PNone | inr v => v end]>
             (<["forward_to_sheets" :=
                  PStr (match forwarding_endpoint W with
                        | Some url =>
                            status_of_post
                              (requests_post W url (forward_json W p dt) 10)
                        | None => "skipped"
                        end)]> ∅))),
         {| ticks := n;
            trace := (trace st ++
                      EvInsert "studentattendance"
                        (<["scanned_at" := PDatetime dt]> (model_dump p))
                      :: forward_events W p dt)%list |})
    ∧ ( (n = ticks st
         ∧ (scanned_at p = ScanDatetime dt
            ∨ ∃ s, scanned_at p = ScanStr s ∧ s ≠ ""
                   ∧ fromisoformat W s = inr dt))
      ∨ (n = S (ticks st) ∧ dt = utcnow W (ticks st)
         ∧ (scanned_at p = ScanNone ∨ scanned_at p = ScanStr ""
            ∨ ∃ s e, scanned_at p = ScanStr s ∧ fromisoformat W s = inl e)) ).
Proof.
  destruct (resolve_scanned_at_clock p st) as (dt & n & Hrun & Hclock).
  exists dt, n. split; [| exact Hclock].
  unfold create_attendance, mbind at 1, M_bind at 1. rewrite Hrun.
  unfold mbind at 1, M_bind at 1. rewrite persist_run.
  unfold mbind at 1, M_bind at 1. rewrite forward_run.
  unfold forward_events. simpl.
  destruct (forwarding_endpoint W) as [url|]; simpl.
  - unfold mret, M_ret. by rewrite <- app_assoc.
  - done.
Qed.

End CreateAttendanceMore.

(** X1: a submission that carries a [datetime] keeps it: the clock is not
    read, and the stored document and every forwarded payload hold that
    value. *)
Theorem given_datetime_is_kept (W : World) (p : AttendanceIn) (d : datetime)
    (st : state) :
  scanned_at p = ScanDatetime d →
  ∃ r st' doc rest,
    create_attendance W p st = (inr r, st')
    ∧ ticks st' = ticks st
    ∧ trace st' = (trace st ++ EvInsert "studentattendance" doc :: rest)%list
    ∧ doc !! "scanned_at" = Some (PDatetime d)
    ∧ Forall (λ ev, ∃ url js,
                ev = EvPost url js 10
                ∧ js !! "scanned_at" = Some (PStr (isoformat W d))) rest.
Proof.
  intros Hs.
  destruct (create_attendance_clock W p st) as (dt & n & Hrun & Hclock).
  assert (n = ticks st ∧ dt = d) as [-> ->].
  { destruct Hclock as [[-> [H|(s & H & _)]]|(_ & _ & [H|[H|(s & e & H & _)]])];
      rewrite Hs in H; by simplify_eq. }
  eexists _, _, _, _. split; [exact Hrun |].
  split; [done |]. split; [done |].
  split; [apply lookup_insert_eq |].
  unfold forward_events. destruct (forwarding_endpoint W) as [url|]; [| done].
  repeat constructor. eexists _, _. split; [reflexivity |].
  unfold forward_json. by simplify_map_eq.
Qed.

Lemma given_datetime_is_kept_witness :
  ∃ r st' doc rest,
    create_attendance Demo.all_up Demo.citra Demo.start = (inr r, st')
    ∧ ticks st' = ticks Demo.start
    ∧ trace st'
      = (trace Demo.start ++ EvInsert "studentattendance" doc :: rest)%list
    ∧ doc !! "scanned_at" = Some (PDatetime Demo.half_past_nine)
    ∧ Forall (λ ev, ∃ url js,
                ev = EvPost url js 10
                ∧ js !! "scanned_at"
                  = Some (PStr (isoformat Demo.all_up Demo.half_past_nine)))
        rest.
Proof.
  apply (given_datetime_is_kept Demo.all_up Demo.citra Demo.half_past_nine
           Demo.start).
  reflexivity.
Defined.

(** X2: a request whose [scanned_at] is a text that the validation accepts
    reaches create_attendance as the parsed [datetime]: that value is stored
    and forwarded, and the clock is not read. *)
Theorem validated_text_is_used (W : World) (parse : string → Res datetime)
    (nm ni mj s : string) (src : option (option string)) (d : datetime)
    (st : state) :
  parse s = inr d →
  ∃ p r st' doc rest,
    AttendanceIn_validate parse nm ni mj (Some (ScanStr s)) src = inr p
    ∧ scanned_at p = ScanDatetime d
    ∧ post_attendance W parse nm ni mj (Some (ScanStr s)) src st = (inr r, st')
    ∧ ticks st' = ticks st
    ∧ trace st' = (trace st ++ EvInsert "studentattendance" doc :: rest)%list
    ∧ doc !! "scanned_at" = Some (PDatetime d)
    ∧ Forall (λ ev, ∃ url js,
                ev = EvPost url js 10
                ∧ js !! "scanned_at" = Some (PStr (isoformat W d))) rest.
Proof.
  intros Hparse.
  assert (AttendanceIn_validate parse nm ni mj (Some (ScanStr s)) src
          = inr (AttendanceIn_new nm ni mj (Some (ScanDatetime d)) src)) as Hp.
  { unfold AttendanceIn_validate, validate_scanned_at, mbind, Res_bind; simpl.
    by rewrite Hparse. }
  set (p := AttendanceIn_new nm ni mj (Some (ScanDatetime d)) src) in *.
  exists p. rewrite (post_attendance_validated W _ _ _ _ _ _ _ st Hp).
  destruct (create_attendance_clock W p st) as (dt & n & Hrun & Hclock).
  assert (n = ticks st ∧ dt = d) as [-> ->].
  { destruct Hclock as [[-> [H|(s' & H & _)]]|(_ & _ & [H|[H|(s' & e & H & _)]])];
      by simplify_eq/=. }
  eexists _, _, _, _. split; [exact Hp |]. split; [done |].
  split; [exact Hrun |].
  split; [done |]. split; [done |].
  split; [apply lookup_insert_eq |].
  unfold forward_events. destruct (forwarding_endpoint W) as [url|]; [| done].
  repeat constructor. eexists _, _. split; [reflexivity |].
  unfold forward_json. by simplify_map_eq.
Qed.

Lemma validated_text_is_used_witness :
  ∃ p r st' doc rest,
    AttendanceIn_validate Demo.parse_one "Budi" "456" "EE"
      (Some (ScanStr "2024-05-17T09:30:00")) None = inr p
    ∧ scanned_at p = ScanDatetime Demo.half_past_nine
    ∧ post_attendance Demo.all_up Demo.parse_one "Budi" "456" "EE"
        (Some (ScanStr "2024-05-17T09:30:00")) None Demo.start = (inr r, st')
    ∧ ticks st' = ticks Demo.start
    ∧ trace st'
      = (trace Demo.start ++ EvInsert "studentattendance" doc :: rest)%list
    ∧ doc !! "scanned_at" = Some (PDatetime Demo.half_past_nine)
    ∧ Forall (λ ev, ∃ url js,
                ev = EvPost url js 10
                ∧ js !! "scanned_at"
                  = Some (PStr (isoformat Demo.all_up Demo.half_past_nine)))
        rest.
Proof.
  apply (validated_text_is_used Demo.all_up Demo.parse_one "Budi" "456" "EE"
           "2024-05-17T09:30:00" None Demo.half_past_nine Demo.start).
  reflexivity.
Defined.

(** X3: one submission reads the clock at most once, and when it does, the
    reading is the timestamp of the stored document. *)
Theorem clock_read_at_most_once (W : World) (p : AttendanceIn) (st : state) :
  ∃ r st' doc rest,
    create_attendance W p st = (inr r, st')
    ∧ trace st' = (trace st ++ EvInsert "studentattendance" doc :: rest)%list
    ∧ ( ticks st' = ticks st
      ∨ (ticks st' = S (ticks st)
         ∧ doc !! "scanned_at" = Some (PDatetime (utcnow W (ticks st)))) ).
Proof.
  destruct (create_attendance_clock W p st) as (dt & n & Hrun & Hclock).
  eexists _, _, _, _. split; [exact Hrun |]. split; [done |].
  destruct Hclock as [[-> _]|(-> & -> & _)]; [by left |].
  right. split; [done |]. apply lookup_insert_eq.
Qed.

(** X4: the response has the three keys [ok], [id] and [forward_to_sheets]
    and nothing else, and its [id] is what [create_document] returned for the
    very document that was handed to it, [None] when it raised. *)
Theorem response_carries_inserted_id (W : World) (p : AttendanceIn)
    (st : state) :
  ∃ r st' doc rest,
    create_attendance W p st = (inr r, st')
    ∧ trace st' = (trace st ++ EvInsert "studentattendance" doc :: rest)%list
    ∧ dom r = ({["ok"; "id"; "forward_to_sheets"]} : gset string)
    ∧ r !! "id" = Some (match create_document W "studentattendance" doc with
                        | inr v => v
                        | inl _ => PNone
                        end).
Proof.
  destruct (create_attendance_run W p st) as (dt & n & Hrun & _).
  eexists _, _, _, _. split; [exact Hrun |]. split; [done |].
  split.
  - rewrite !dom_insert_L, dom_empty_L. set_solver.
  - destruct (create_document W "studentattendance" _); by simplify_map_eq.
Qed.

(** X5: the document handed to the store has exactly the keys [name],
    [nisn], [major], [scanned_at] and [source]; the first three and [source]
    hold the submission's values, [scanned_at] holds a [datetime]. *)
Theorem stored_document_fields (W : World) (p : AttendanceIn) (st : state) :
  ∃ r st' doc rest dt,
    create_attendance W p st = (inr r, st')
    ∧ trace st' = (trace st ++ EvInsert "studentattendance" doc :: rest)%list
    ∧ dom doc
      = ({["name"; "nisn"; "major"; "scanned_at"; "source"]} : gset string)
    ∧ doc !! "name" = Some (PStr (name p))
    ∧ doc !! "nisn" = Some (PStr (nisn p))
    ∧ doc !! "major" = Some (PStr (major p))
    ∧ doc !! "scanned_at" = Some (PDatetime dt)
    ∧ doc !! "source" = Some (optional_str (source p)).
Proof.
  destruct (create_attendance_run W p st) as (dt & n & Hrun & _).
  eexists _, _, _, _, dt. split; [exact Hrun |]. split; [done |].
  split.
  { unfold model_dump. rewrite !dom_insert_L, dom_empty_L. set_solver. }
  rewrite stored_lookup_name, stored_lookup_nisn, stored_lookup_major,
    stored_lookup_source, lookup_insert_eq. done.
Qed.

(** X6: when GOOGLE_SHEETS_WEBAPP_URL is unset or empty the handler makes no
    post: the insert is its only outbound call, and the status is
    ["skipped"]. *)
Theorem no_endpoint_no_post (W : World) (p : AttendanceIn) (st : state) :
  getenv W "GOOGLE_SHEETS_WEBAPP_URL" = None
  ∨ getenv W "GOOGLE_SHEETS_WEBAPP_URL" = Some "" →
  ∃ r st' doc,
    create_attendance W p st = (inr r, st')
    ∧ trace st' = (trace st ++ [EvInsert "studentattendance" doc])%list
    ∧ r !! "forward_to_sheets" = Some (PStr "skipped").
Proof.
  intros Hurl%forwarding_endpoint_None.
  destruct (create_attendance_run W p st) as (dt & n & Hrun & _).
  unfold forward_events in Hrun. rewrite Hurl in Hrun.
  eexists _, _, _. split; [exact Hrun |]. split; [done |].
  by simplify_map_eq.
Qed.

Lemma no_endpoint_no_post_witness :
  ∃ r st' doc,
    create_attendance DemoListing.two_documents Demo.ana Demo.start
      = (inr r, st')
    ∧ trace st' = (trace Demo.start ++ [EvInsert "studentattendance" doc])%list
    ∧ r !! "forward_to_sheets" = Some (PStr "skipped").
Proof.
  apply (no_endpoint_no_post DemoListing.two_documents Demo.ana Demo.start).
  left. reflexivity.
Defined.

(** X7: a submission whose [source] is given as [None] is stored and
    forwarded with [None]: the ["qr"] of [data.get("source", "qr")] is not
    used, since the key is always there. *)
Theorem null_source_stays_null (W : World) (p : AttendanceIn) (st : state) :
  source p = None →
  ∃ r st' doc rest,
    create_attendance W p st = (inr r, st')
    ∧ trace st' = (trace st ++ EvInsert "studentattendance" doc :: rest)%list
    ∧ doc !! "source" = Some PNone
    ∧ Forall (λ ev, ∃ url js,
                ev = EvPost url js 10 ∧ js !! "source" = Some PNone) rest.
Proof.
  intros Hsource.
  destruct (create_attendance_run W p st) as (dt & n & Hrun & _).
  eexists _, _, _, _. split; [exact Hrun |]. split; [done |].
  split; [by rewrite stored_lookup_source, Hsource |].
  unfold forward_events. destruct (forwarding_endpoint W) as [url|]; [| done].
  repeat constructor. eexists _, _. split; [reflexivity |].
  unfold forward_json. rewrite Hsource. by simplify_map_eq.
Qed.

Lemma null_source_stays_null_witness :
  ∃ r st' doc rest,
    create_attendance Demo.parses Demo.budi Demo.start = (inr r, st')
    ∧ trace st'
      = (trace Demo.start ++ EvInsert "studentattendance" doc :: rest)%list
    ∧ doc !! "source" = Some PNone
    ∧ Forall (λ ev, ∃ url js,
                ev = EvPost url js 10 ∧ js !! "source" = Some PNone) rest.
Proof.
  apply (null_source_stays_null Demo.parses Demo.budi Demo.start).
  reflexivity.
Defined.

(** X8: when the post raises [e], the status is ["error: "] followed by the
    message of [e] cut to 120 characters: its length is 7 plus the smaller of
    120 and the length of the message, and a message of at most 120
    characters is kept whole. *)
Theorem error_status_length (W : World) (p : AttendanceIn) (st : state)
    (url : string) (e : exn) :
  getenv W "GOOGLE_SHEETS_WEBAPP_URL" = Some url →
  url ≠ "" →
  (∀ js, requests_post W url js 10 = inl e) →
  ∃ r st' status,
    create_attendance W p st = (inr r, st')
    ∧ r !! "forward_to_sheets" = Some (PStr status)
    ∧ String.length status = (7 + 120 `min` String.length (exn_str e))%nat
    ∧ ((String.length (exn_str e) ≤ 120)%nat →
       status = "error: " +:+ exn_str e).
Proof.
  intros Hurl Hne Hpost.
  destruct (create_attendance_run W p st) as (dt & n & Hrun & _).
  rewrite (proj2 (forwarding_endpoint_Some W url) (conj Hurl Hne)), Hpost
    in Hrun.
  eexists _, _, _. split; [exact Hrun |].
  split; [by simplify_map_eq |].
  unfold status_of_post. split.
  - by rewrite string_length_append, str_prefix_length_min.
  - intros Hlen. by rewrite str_prefix_short.
Qed.

Lemma error_status_length_witness :
  ∃ r st' status,
    create_attendance Demo.endpoint_down Demo.ana Demo.start = (inr r, st')
    ∧ r !! "forward_to_sheets" = Some (PStr status)
    ∧ String.length status
      = (7 + 120 `min` String.length "Connection refused")%nat
    ∧ ((String.length "Connection refused" ≤ 120)%nat →
       status = "error: " +:+ "Connection refused").
Proof.
  apply (error_status_length Demo.endpoint_down Demo.ana Demo.start
           "https://sheets.example/hook"
           (Exn (OtherException "ConnectionError") "Connection refused")).
  - reflexivity.
  - discriminate.
  - intros js. reflexivity.
Defined.

(** ** GET /config *)

Lemma status_of_post_not_skipped r : status_of_post r ≠ "skipped".
Proof. unfold status_of_post. by destruct r as [e|[[e|]]]. Qed.

Lemma env_is_set_forwarding_endpoint (W : World) :
  env_is_set W "GOOGLE_SHEETS_WEBAPP_URL"
  = bool_decide (is_Some (forwarding_endpoint W)).
Proof.
  unfold env_is_set, forwarding_endpoint.
  destruct (getenv W "GOOGLE_SHEETS_WEBAPP_URL") as [u|]; [| done].
  by destruct (String.eqb u "").
Qed.

(** X9: get_config returns one key, [sheets_webhook], without touching the
    state, and it agrees with create_attendance: the flag is [True] exactly
    when a submission is forwarded, that is, when a post is among the calls
    it makes and its status is not ["skipped"]. *)
Theorem get_config_agrees_with_forwarding (W : World) (p : AttendanceIn)
    (st0 st : state) :
  ∃ c b r st' status calls,
    get_config W st0 = (inr c, st0)
    ∧ dom c = ({["sheets_webhook"]} : gset string)
    ∧ c !! "sheets_webhook" = Some (PBool b)
    ∧ create_attendance W p st = (inr r, st')
    ∧ r !! "forward_to_sheets" = Some (PStr status)
    ∧ trace st' = (trace st ++ calls)%list
    ∧ (b = true ↔ status ≠ "skipped")
    ∧ (b = true ↔ ∃ url js, EvPost url js 10 ∈ calls).
Proof.
  destruct (create_attendance_run W p st) as (dt & n & Hrun & _).
  eexists _, _, _, _, _, _. split; [reflexivity |].
  split; [by rewrite dom_insert_L, dom_empty_L, union_empty_r_L |].
  split; [apply lookup_insert_eq |].
  split; [exact Hrun |].
  split; [by simplify_map_eq |].
  split; [reflexivity |].
  rewrite env_is_set_forwarding_endpoint. unfold forward_events.
  destruct (forwarding_endpoint W) as [url|]; simpl.
  - split.
    + split; [intros _; apply status_of_post_not_skipped | done].
    + split; [| done]. intros _. eexists _, _.
      rewrite !elem_of_cons. right. left. reflexivity.
  - split.
    + split; [done | congruence].
    + split; [done |]. intros (url & js & Hin).
      rewrite !elem_of_cons, elem_of_nil in Hin. by destruct Hin as [Hin|[]].
Qed.

(** ** GET /attendance *)

Section ListAttendanceMore.
Context (W : World).

(** What the loop body leaves under a timestamp key. *)
Lemma isoformat_field_lookup_eq k d :
  isoformat_field W k d !! k
  = match d !! k with
    | Some (PDatetime t) => Some (PStr (isoformat W t))
    | o => o
    end.
Proof.
  unfold isoformat_field, dict_get.
  destruct (d !! k) as [v|] eqn:Hk; simpl; [| done].
  destruct v; simpl; rewrite ?lookup_insert_eq, ?Hk; done.
Qed.

Lemma convert_document_id d :
  convert_document W d !! "id"
  = Some (PStr (py_str W (dict_get d "_id" (PStr "")))).
Proof.
  unfold convert_document.
  rewrite !isoformat_field_lookup_ne by done. apply lookup_insert_eq.
Qed.

Lemma convert_document_no__id d : convert_document W d !! "_id" = None.
Proof.
  unfold convert_document.
  rewrite !isoformat_field_lookup_ne by done.
  rewrite lookup_insert_ne by done. apply lookup_delete_eq.
Qed.

Lemma convert_document_timestamp k d :
  k ∈ timestamp_keys →
  convert_document W d !! k
  = match d !! k with
    | Some (PDatetime t) => Some (PStr (isoformat W t))
    | o => o
    end.
Proof.
  unfold timestamp_keys, convert_document. rewrite !elem_of_cons, elem_of_nil.
  intros [->|[->|[->|[]]]].
  - rewrite !isoformat_field_lookup_ne by done.
    rewrite isoformat_field_lookup_eq.
    rewrite lookup_insert_ne by done. by rewrite lookup_delete_ne by done.
  - rewrite isoformat_field_lookup_ne by done.
    rewrite isoformat_field_lookup_eq.
    rewrite isoformat_field_lookup_ne by done.
    rewrite lookup_insert_ne by done. by rewrite lookup_delete_ne by done.
  - rewrite isoformat_field_lookup_eq.
    rewrite !isoformat_field_lookup_ne by done.
    rewrite lookup_insert_ne by done. by rewrite lookup_delete_ne by done.
Qed.

Lemma convert_document_other k d :
  k ∉ converted_keys → convert_document W d !! k = d !! k.
Proof.
  unfold converted_keys, convert_document.
  rewrite !not_elem_of_cons. intros (? & ? & ? & ? & ? & _).
  rewrite !isoformat_field_lookup_ne by done.
  rewrite lookup_insert_ne by done. by rewrite lookup_delete_ne by done.
Qed.

(** Every record of the listing is the conversion of a stored document. *)
Lemma listing_elem_of limit docs x :
  get_documents W "studentattendance" ∅ limit = inr docs →
  x ∈ listing W limit →
  ∃ d, d ∈ docs ∧ x = convert_document W d.
Proof.
  intros Hdocs. unfold listing. rewrite Hdocs.
  destruct (list_sort_reverse W created_at_key (convert_document W <$> docs))
    as [e|r] eqn:Hsort; [by rewrite elem_of_nil |].
  apply list_sort_reverse_spec in Hsort as [Hperm _].
  - rewrite Hperm, list_elem_of_fmap. intros (d & -> & Hd). by exists d.
  - apply Forall_fmap, Forall_forall. intros d _.
    apply convert_document_plain_key.
Qed.

End ListAttendanceMore.

(** X10: every returned record comes from a stored document: it has no
    [_id], its [id] is the text of the document's [_id] (the empty text when
    there was none), and every field other than [_id], [id] and the three
    timestamps is as it was stored. *)
Theorem listed_records_identified (W : World) (limit : Z) (st : state)
    (docs : list dict) :
  get_documents W "studentattendance" ∅ limit = inr docs →
  ∃ r st',
    list_attendance W limit st = (inr r, st')
    ∧ Forall (λ x : dict,
        ∃ d : dict,
          d ∈ docs
          ∧ x !! "_id" = None
          ∧ x !! "id" = Some (PStr (py_str W (dict_get d "_id" (PStr ""))))
          ∧ (d !! "_id" = None → x !! "id" = Some (PStr ""))
          ∧ (∀ k, k ∉ converted_keys → x !! k = d !! k)) r.
Proof.
  intros Hdocs. rewrite list_attendance_run.
  eexists _, _. split; [reflexivity |].
  apply Forall_forall. intros x Hx.
  destruct (listing_elem_of W limit docs x Hdocs Hx) as (d & Hd & ->).
  exists d. split; [done |].
  split; [apply convert_document_no__id |].
  split; [apply convert_document_id |].
  split.
  - intros Hid. rewrite convert_document_id. unfold dict_get. by rewrite Hid.
  - intros k Hk. by apply convert_document_other.
Qed.

Lemma listed_records_identified_witness :
  ∃ r st',
    list_attendance DemoListing.three_documents 3 Demo.start = (inr r, st')
    ∧ Forall (λ x : dict,
        ∃ d : dict,
          d ∈ [DemoListing.stored "65f0a1" 1; DemoListing.stored "65f0a2" 2;
               DemoListing.stored "65f0a3" 3]
          ∧ x !! "_id" = None
          ∧ x !! "id"
            = Some (PStr (py_str DemoListing.three_documents
                            (dict_get d "_id" (PStr ""))))
          ∧ (d !! "_id" = None → x !! "id" = Some (PStr ""))
          ∧ (∀ k, k ∉ converted_keys → x !! k = d !! k)) r.
Proof.
  apply (listed_records_identified DemoListing.three_documents 3 Demo.start).
  reflexivity.
Defined.

(** X11: no returned record holds a [datetime] under [scanned_at],
    [created_at] or [updated_at]: a stored [datetime] is returned as its
    [isoformat()] text, and any other stored value (or none) is returned as
    it is. *)
Theorem listed_timestamps_are_text (W : World) (limit : Z) (st : state)
    (docs : list dict) :
  get_documents W "studentattendance" ∅ limit = inr docs →
  ∃ r st',
    list_attendance W limit st = (inr r, st')
    ∧ Forall (λ x : dict,
        ∃ d : dict,
          d ∈ docs
          ∧ ∀ k, k ∈ timestamp_keys →
              (∀ t, x !! k ≠ Some (PDatetime t))
              ∧ (∀ t, d !! k = Some (PDatetime t) →
                      x !! k = Some (PStr (isoformat W t)))
              ∧ ((∀ t, d !! k ≠ Some (PDatetime t)) → x !! k = d !! k)) r.
Proof.
  intros Hdocs. rewrite list_attendance_run.
  eexists _, _. split; [reflexivity |].
  apply Forall_forall. intros x Hx.
  destruct (listing_elem_of W limit docs x Hdocs Hx) as (d & Hd & ->).
  exists d. split; [done |]. intros k Hk.
  rewrite (convert_document_timestamp W k d Hk).
  destruct (d !! k) as [[]|] eqn:Hdk; repeat split; try done; congruence.
Qed.

Lemma listed_timestamps_are_text_witness :
  ∃ r st',
    list_attendance DemoListing.three_documents 3 Demo.start = (inr r, st')
    ∧ Forall (λ x : dict,
        ∃ d : dict,
          d ∈ [DemoListing.stored "65f0a1" 1; DemoListing.stored "65f0a2" 2;
               DemoListing.stored "65f0a3" 3]
          ∧ ∀ k, k ∈ timestamp_keys →
              (∀ t, x !! k ≠ Some (PDatetime t))
              ∧ (∀ t, d !! k = Some (PDatetime t) →
                      x !! k
                      = Some (PStr (isoformat DemoListing.three_documents t)))
              ∧ ((∀ t, d !! k ≠ Some (PDatetime t)) → x !! k = d !! k)) r.
Proof.
  apply (listed_timestamps_are_text DemoListing.three_documents 3 Demo.start).
  reflexivity.
Defined.

(** X12: whatever the store answers, list_attendance makes one outbound
    call, a find on [studentattendance] with the empty filter and the limit it
    was given; it reads no clock, inserts nothing and posts nothing. *)
Theorem list_attendance_one_find (W : World) (limit : Z) (st : state) :
  ∃ r st',
    list_attendance W limit st = (inr r, st')
    ∧ ticks st' = ticks st
    ∧ trace st' = (trace st ++ [EvFind "studentattendance" ∅ limit])%list.
Proof. rewrite list_attendance_run. by eexists _, _. Qed.

(** *** Order among equal keys, and keys that cannot be compared *)

Section SortingMore.
Context (W : World) {A : Type} (key : A → pyval).

Lemma filter_none (P : A → Prop) `{∀ x, Decision (P x)} (l : list A) :
  Forall (λ x, ¬ P x) l → filter P l = [].
Proof.
  induction 1 as [|x l Hx Hl IH]; [done |].
  by rewrite filter_cons_False.
Qed.

(** Inserting [x] into a sorted list puts it behind the elements of its own
    key. *)
Lemma insert_sorted_filter k x l l' :
  plain_key key x →
  StronglySorted (ascending W key) l →
  insert_sorted W key x l = inr l' →
  filter (λ y, key y = k) l'
  = (filter (λ y, key y = k) l ++ filter (λ y, key y = k) [x])%list.
Proof.
  intros Hx. revert l'. induction l as [|y l IH]; intros l' Hsorted; simpl.
  - by intros [= <-].
  - apply StronglySorted_inv in Hsorted as [Hsorted Hhd].
    unfold mbind, Res_bind.
    destruct (py_lt W (key x) (key y)) as [e|[]] eqn:Hlt; [done | |].
    + intros [= <-].
      destruct (decide (key x = k)) as [Hk|Hk].
      * rewrite (filter_cons_True _ x) by done.
        rewrite (filter_none (λ y, key y = k) (y :: l)).
        { by rewrite (filter_cons_True _ x), filter_nil by done. }
        constructor.
        -- intros Hy. rewrite Hy, <- Hk in Hlt.
           pose proof (py_lt_asym W _ _ Hx Hlt). congruence.
        -- eapply Forall_impl; [exact Hhd |]. intros z Hz Hkz.
           unfold ascending in Hz. rewrite Hkz, <- Hk in Hz. congruence.
      * rewrite (filter_cons_False _ x) by done.
        rewrite (filter_cons_False _ x [] ) by done.
        by rewrite filter_nil, app_nil_r.
    + destruct (insert_sorted W key x l) as [e|l''] eqn:Hins; [done |].
      intros [= <-]. rewrite !(filter_cons _ y), (IH l'' Hsorted eq_refl).
      by destruct (decide (key y = k)).
Qed.

Lemma sort_ascending_filter k acc l r :
  Forall (plain_key key) acc → Forall (plain_key key) l →
  StronglySorted (ascending W key) acc →
  foldl (λ acc x, acc ← acc; insert_sorted W key x acc) (inr acc) l = inr r →
  filter (λ y, key y = k) r
  = (filter (λ y, key y = k) acc ++ filter (λ y, key y = k) l)%list.
Proof.
  revert acc. induction l as [|x l IH]; intros acc Hacc Hl Hsorted; simpl.
  - intros [= <-]. by rewrite filter_nil, app_nil_r.
  - apply Forall_cons in Hl as [Hx Hl].
    destruct (insert_sorted W key x acc) as [e|acc'] eqn:Hins.
    + by rewrite sort_ascending_raise.
    + intros Hr.
      pose proof (insert_sorted_Permutation W key _ _ _ Hins) as Hperm.
      apply IH in Hr; [| | done |].
      * rewrite Hr, (insert_sorted_filter k x acc acc' Hx Hsorted Hins).
        rewrite <- app_assoc. f_equal.
        by rewrite <- (filter_app _ [x] l).
      * apply Forall_forall. intros z Hz. rewrite Hperm in Hz.
        apply elem_of_cons in Hz as [->|Hz]; [done |].
        rewrite Forall_forall in Hacc. by apply Hacc.
      * exact (insert_sorted_StronglySorted W key x acc acc' Hx Hacc Hsorted
                 Hins).
Qed.

(** The sort is stable: the elements of one key keep their order. *)
Lemma list_sort_reverse_stable k l r :
  Forall (plain_key key) l →
  list_sort_reverse W key l = inr r →
  filter (λ y, key y = k) r = filter (λ y, key y = k) l.
Proof.
  intros Hl. unfold list_sort_reverse, mbind, Res_bind.
  destruct (sort_ascending W key (reverse l)) as [e|l'] eqn:Hsort; [done |].
  intros [= <-].
  apply (sort_ascending_filter k []) in Hsort;
    [| done | by apply Forall_reverse | constructor].
  rewrite filter_reverse, Hsort, filter_nil, app_nil_l, filter_reverse.
  apply reverse_involutive.
Qed.

(** Two elements whose keys cannot be compared make the sort raise. *)
Lemma list_sort_reverse_incomparable l i j x y e1 e2 :
  Forall (plain_key key) l →
  l !! i = Some x → l !! j = Some y → i ≠ j →
  py_lt W (key x) (key y) = inl e1 →
  py_lt W (key y) (key x) = inl e2 →
  ∃ e, list_sort_reverse W key l = inl e.
Proof.
  intros Hl Hi Hj Hij Hxy Hyx.
  destruct (list_sort_reverse W key l) as [e|r] eqn:Hsort; [by exists e |].
  apply list_sort_reverse_spec in Hsort as [Hperm Hsorted]; [| done].
  symmetry in Hperm. apply Permutation_inj in Hperm as [_ (f & Hf & Hlookup)].
  rewrite Hlookup in Hi, Hj.
  destruct (decide (f i < f j)%nat) as [Hlt|Hge].
  - pose proof (Hsorted _ _ _ _ Hi Hj Hlt) as H. unfold descending in H.
    congruence.
  - assert (f j < f i)%nat as Hlt.
    { assert (f i ≠ f j) by (intros Heq; by apply Hf in Heq). lia. }
    pose proof (Hsorted _ _ _ _ Hj Hi Hlt) as H. unfold descending in H.
    congruence.
Qed.

End SortingMore.

(** X13: when two of the documents have [created_at] keys that Python
    cannot order either way (a number and a text, or a [None]), the sort
    raises, the handler swallows the [TypeError] and returns the empty
    list. *)
Theorem incomparable_keys_give_empty (W : World) (limit : Z) (st : state)
    (docs : list dict) (i j : nat) (d1 d2 : dict) (e1 e2 : exn) :
  get_documents W "studentattendance" ∅ limit = inr docs →
  docs !! i = Some d1 → docs !! j = Some d2 → i ≠ j →
  py_lt W (created_at_key (convert_document W d1))
          (created_at_key (convert_document W d2)) = inl e1 →
  py_lt W (created_at_key (convert_document W d2))
          (created_at_key (convert_document W d1)) = inl e2 →
  ∃ st', list_attendance W limit st = (inr [], st').
Proof.
  intros Hdocs Hi Hj Hij H12 H21. rewrite list_attendance_run.
  eexists. unfold listing. rewrite Hdocs.
  destruct (list_sort_reverse_incomparable W created_at_key
              (convert_document W <$> docs) i j
              (convert_document W d1) (convert_document W d2) e1 e2)
    as [e ->]; try done.
  - apply Forall_fmap, Forall_forall. intros d _.
    apply convert_document_plain_key.
  - by rewrite list_lookup_fmap, Hi.
  - by rewrite list_lookup_fmap, Hj.
Qed.

Lemma incomparable_keys_give_empty_witness :
  ∃ st', list_attendance DemoListing.mixed_keys 50 Demo.start = (inr [], st').
Proof.
  apply (incomparable_keys_give_empty DemoListing.mixed_keys 50 Demo.start
           [<["created_at" := PInt 1715947200]> ∅;
            <["created_at" := PStr "2024-05-17T12:00:00"]> ∅]
           0%nat 1%nat
           (<["created_at" := PInt 1715947200]> ∅)
           (<["created_at" := PStr "2024-05-17T12:00:00"]> ∅)
           (lt_TypeError (PInt 1715947200) (PStr "2024-05-17T12:00:00"))
           (lt_TypeError (PStr "2024-05-17T12:00:00") (PInt 1715947200)));
    try reflexivity.
  discriminate.
Defined.

(** X14: when every stored document's [created_at] is missing, a
    [datetime] or a text, nothing is lost and the sort is stable: the handler
    returns all documents, converted, and the records of one [created_at] key
    come in the order in which the store returned them. *)
Theorem listing_complete_and_stable (W : World) (limit : Z) (st : state)
    (docs : list dict) :
  get_documents W "studentattendance" ∅ limit = inr docs →
  Forall (λ d : dict,
            d !! "created_at" = None
            ∨ (∃ t, d !! "created_at" = Some (PDatetime t))
            ∨ (∃ s, d !! "created_at" = Some (PStr s))) docs →
  ∃ r st',
    list_attendance W limit st = (inr r, st')
    ∧ r ≡ₚ convert_document W <$> docs
    ∧ length r = length docs
    ∧ ∀ k : pyval,
        filter (λ x, created_at_key x = k) r
        = filter (λ x, created_at_key x = k) (convert_document W <$> docs).
Proof.
  intros Hdocs Hkeys. rewrite list_attendance_run.
  eexists _, _. split; [reflexivity |].
  pose proof (listing_complete W limit docs Hdocs Hkeys) as Hperm.
  split; [exact Hperm |].
  split; [by rewrite Hperm, length_fmap |].
  intros k. unfold listing in *. rewrite Hdocs in *.
  destruct (list_sort_reverse W created_at_key (convert_document W <$> docs))
    as [e|r] eqn:Hsort.
  - apply Permutation_nil_l in Hperm. by rewrite <- Hperm.
  - apply (list_sort_reverse_stable W created_at_key k _ _) in Hsort; [done |].
    apply Forall_fmap, Forall_forall. intros d _.
    apply convert_document_plain_key.
Qed.

Lemma listing_complete_and_stable_witness :
  ∃ r st',
    list_attendance DemoListing.two_documents 2 Demo.start = (inr r, st')
    ∧ r ≡ₚ convert_document DemoListing.two_documents
             <$> [DemoListing.doc_without; DemoListing.doc_empty]
    ∧ length r = length [DemoListing.doc_without; DemoListing.doc_empty]
    ∧ ∀ k : pyval,
        filter (λ x, created_at_key x = k) r
        = filter (λ x, created_at_key x = k)
            (convert_document DemoListing.two_documents
               <$> [DemoListing.doc_without; DemoListing.doc_empty]).
Proof.
  apply (listing_complete_and_stable DemoListing.two_documents 2 Demo.start
           [DemoListing.doc_without; DemoListing.doc_empty]).
  - reflexivity.
  - apply Forall_cons. split; [left; reflexivity |].
    apply Forall_cons. split; [| apply Forall_nil; exact I].
    right. right. exists "". reflexivity.
Defined.

(** ** GET /test *)

Lemma test_database_probe (W : World) (st : state) :
  ∃ r,
    test_database W st = (inr r, st)
    ∧ dom r = ({["backend"; "database"; "database_url"; "database_name";
                 "connection_status"; "collections"]} : gset string)
    ∧ r !! "backend" = Some (DStr "✅ Running")
    ∧ r !! "connection_status"
      = Some (DStr (match import_db W with
                    | inr (Some _) => "Connected"
                    | _ => "Not Connected"
                    end))
    ∧ r !! "collections"
      = Some (DList (match import_db W with
                     | inr (Some db) =>
                         match list_collection_names db with
                         | inr l => take 10 l
                         | inl _ => []
                         end
                     | _ => []
                     end)).
Proof.
  unfold test_database, try_except, lift.
  unfold mbind, M_bind, mret, M_ret.
  destruct (import_db W) as [e|[db|]]; simpl.
  - destruct (is_ImportError e); simpl; eexists; (split; [reflexivity |]);
      (split; [rewrite !dom_insert_L, dom_empty_L; set_solver |]);
      by simplify_map_eq.
  - destruct (list_collection_names db) as [e|l]; simpl;
      eexists; (split; [reflexivity |]);
      (split; [rewrite !dom_insert_L, dom_empty_L; set_solver |]);
      by simplify_map_eq.
  - eexists; (split; [reflexivity |]);
      (split; [rewrite !dom_insert_L, dom_empty_L; set_solver |]);
      by simplify_map_eq.
Qed.

(** X15: on every path, failures of the probe included, the response of
    test_database has exactly the six keys [backend], [database],
    [database_url], [database_name], [connection_status] and [collections],
    and [backend] is ["✅ Running"]. *)
Theorem test_database_shape (W : World) (st : state) :
  ∃ r st',
    test_database W st = (inr r, st')
    ∧ dom r = ({["backend"; "database"; "database_url"; "database_name";
                 "connection_status"; "collections"]} : gset string)
    ∧ r !! "backend" = Some (DStr "✅ Running").
Proof.
  destruct (test_database_probe W st) as (r & Hrun & Hdom & Hbackend & _).
  by exists r, st.
Qed.

(** X16: [connection_status] is ["Connected"] exactly when the import gave
    a [db] that is not [None], also when the collections cannot be listed
    afterwards; otherwise it stays ["Not Connected"]. *)
Theorem connection_status_follows_import (W : World) (st : state) :
  ∃ r st' status,
    test_database W st = (inr r, st')
    ∧ r !! "connection_status" = Some (DStr status)
    ∧ (status = "Connected" ∨ status = "Not Connected")
    ∧ (status = "Connected" ↔ ∃ db, import_db W = inr (Some db)).
Proof.
  destruct (test_database_probe W st) as (r & Hrun & _ & _ & Hstatus & _).
  eexists r, st, _. split; [exact Hrun |]. split; [exact Hstatus |].
  destruct (import_db W) as [e|[db|]]; (split; [auto |]); split;
    try done; try (intros [db' Hdb]; discriminate); eauto.
Qed.

(** X17: [collections] is the empty list unless the collections were
    listed; then it is the first 10 names, that is, all of them, unchanged,
    when there are at most 10. *)
Theorem collections_shown (W : World) (st : state) :
  ∃ r st' names,
    test_database W st = (inr r, st')
    ∧ r !! "collections" = Some (DList names)
    ∧ (∀ e, import_db W = inl e → names = [])
    ∧ (import_db W = inr None → names = [])
    ∧ (∀ db e, import_db W = inr (Some db) →
         list_collection_names db = inl e → names = [])
    ∧ (∀ db l, import_db W = inr (Some db) →
         list_collection_names db = inr l →
         names `prefix_of` l
         ∧ length names = (10 `min` length l)%nat
         ∧ ((length l ≤ 10)%nat → names = l)).
Proof.
  destruct (test_database_probe W st) as (r & Hrun & _ & _ & _ & Hcoll).
  eexists r, st, _. split; [exact Hrun |]. split; [exact Hcoll |].
  destruct (import_db W) as [e|[db|]].
  - split; [done |]. split; [done |]. split; intros; discriminate.
  - split; [intros; discriminate |]. split; [intros; discriminate |]. split.
    + intros db' e [= <-] Hlist. by rewrite Hlist.
    + intros db' l [= <-] Hlist. rewrite Hlist.
      split; [apply prefix_take |]. split; [apply length_take |].
      intros Hlen. by apply take_ge.
  - split; [intros; discriminate |]. split; [done |]. split; intros; discriminate.
Qed.

(** ** POST /attendance, then GET /attendance *)

Ltac not_converted :=
  unfold converted_keys;
  repeat (apply not_elem_of_cons; split; [discriminate |]);
  apply not_elem_of_nil.

(** X18: when the store gives back, as its only document, what a submission
    inserted (the five fields as they were handed to it, whatever else the
    store added), list_attendance shows that document with the same [name],
    [nisn], [major], [scanned_at] and [source] as the payload that was
    forwarded: the timestamp comes back as the same ISO-8601 text. *)
Theorem listed_submission_matches_forwarded (W : World) (p : AttendanceIn)
    (st st2 : state) (limit : Z) (d : dict) :
  get_documents W "studentattendance" ∅ limit = inr [d] →
  ∃ r st' doc dt,
    create_attendance W p st = (inr r, st')
    ∧ trace st'
      = (trace st ++
         EvInsert "studentattendance" doc ::
         match forwarding_endpoint W with
         | Some url => [EvPost url (forward_json W p dt) 10]
         | None => []
         end)%list
    ∧ ((∀ k, k ∈ submission_keys → d !! k = doc !! k) →
       ∃ x st2',
         list_attendance W limit st2 = (inr [x], st2')
         ∧ ∀ k, k ∈ submission_keys → x !! k = forward_json W p dt !! k).
Proof.
  intros Hdocs.
  destruct (create_attendance_run W p st) as (dt & n & Hrun & _).
  eexists _, _, _, dt. split; [exact Hrun |]. split; [reflexivity |].
  intros Hagree. rewrite list_attendance_run.
  assert (listing W limit = [convert_document W d]) as ->.
  { unfold listing. by rewrite Hdocs. }
  eexists _, _. split; [reflexivity |].
  intros k Hk. specialize (Hagree k Hk). revert Hagree.
  unfold submission_keys in Hk. rewrite !elem_of_cons, elem_of_nil in Hk.
  unfold forward_json.
  destruct Hk as [->|[->|[->|[->|[->|[]]]]]].
  - rewrite stored_lookup_name. intros Hd.
    rewrite convert_document_other, Hd by not_converted.
    by simplify_map_eq.
  - rewrite stored_lookup_nisn. intros Hd.
    rewrite convert_document_other, Hd by not_converted.
    by simplify_map_eq.
  - rewrite stored_lookup_major. intros Hd.
    rewrite convert_document_other, Hd by not_converted.
    by simplify_map_eq.
  - rewrite lookup_insert_eq. intros Hd.
    rewrite convert_document_timestamp, Hd by (apply list_elem_of_here).
    by simplify_map_eq.
  - rewrite stored_lookup_source. intros Hd.
    rewrite convert_document_other, Hd by not_converted.
    by simplify_map_eq.
Qed.

Lemma listed_submission_matches_forwarded_witness :
  ∃ r st' doc dt,
    create_attendance DemoListing.one_document Demo.citra Demo.start
      = (inr r, st')
    ∧ trace st'
      = (trace Demo.start ++
         EvInsert "studentattendance" doc ::
         match forwarding_endpoint DemoListing.one_document with
         | Some url =>
             [EvPost url (forward_json DemoListing.one_document Demo.citra dt)
                10]
         | None => []
         end)%list
    ∧ ((∀ k, k ∈ submission_keys → DemoListing.citra_stored !! k = doc !! k) →
       ∃ x st2',
         list_attendance DemoListing.one_document 50 Demo.start
           = (inr [x], st2')
         ∧ ∀ k, k ∈ submission_keys →
             x !! k = forward_json DemoListing.one_document Demo.citra dt !! k).
Proof.
  apply (listed_submission_matches_forwarded DemoListing.one_document
           Demo.citra Demo.start Demo.start 50 DemoListing.citra_stored).
  reflexivity.
Defined.

(** The round trip on the document of [DemoListing]: what the listing shows
    is what was forwarded. *)
Example citra_round_trip :
  (λ x : dict, (λ k, x !! k) <$> submission_keys)
    <$> listing DemoListing.one_document 50
  = [[Some (PStr "Citra"); Some (PStr "789"); Some (PStr "ME");
      Some (PStr "2024-05-17T09:30:00"); Some (PStr "manual")]].
Proof. vm_compute. reflexivity. Qed.
